(** * Vector-tile core of [main.py]: tile box, clipping loop, quantizer

    A shallow embedding of [tile_to_bbox], [geometry_to_tile_coords],
    [create_pbf_tile] and [serve_pbf_tile].

    - Python exceptions are values of [exn]; a computation that may raise
      returns [result A], and sequencing is the bind of that monad.
    - Python [float] arithmetic sits behind the interface [PyFloat]
      (operators) and [PyMath] (the [math] module).  Two interpretations
      are given: [B64], IEEE binary64 as CPython evaluates it (Rocq's
      primitive floats), and [Exact], the same program text read over the
      real numbers with no rounding and no overflow.
    - shapely geometries are a tagged variant; [transform], [bounds],
      [box] and [is_empty] are modelled on it.
    - What the program only calls (pyproj's transformer, GEOS predicates,
      fiona, the tile encoder) is the interface [Externals]. *)

From Stdlib Require Import String.
From Stdlib Require Import ZArith List Bool Lia DecimalString.
From Stdlib Require DecimalPos DecimalZ.
From Stdlib Require Import Floats.
From Stdlib Require Import Reals Lra Psatz.
Import ListNotations.

Set Implicit Arguments.
Set Warnings "-register-all".
Local Open Scope list_scope.

(** ** Exceptions and the error monad *)

(** The exception classes the modelled code can meet.  [main.py] defines no
    exception class of its own; [UserDefined] names a class by its name so
    that statements can speak of one. *)
Inductive exn : Type :=
| OverflowError
| ZeroDivisionError
| ValueError
| TypeError
| AttributeError
| DriverError                      (* fiona.errors *)
| GEOSException                    (* shapely.errors *)
| ProjError                        (* pyproj.exceptions *)
| EncodeError                      (* mapbox_vector_tile *)
| HTTPException (status_code : Z) (detail : string)
| UserDefined (class_name : string).

Inductive result (A : Type) : Type :=
| Ok (a : A)
| Err (e : exn).

Arguments Ok {A} a.
Arguments Err {A} e.

Definition bind {A B : Type} (c : result A) (k : A -> result B) : result B :=
  match c with
  | Ok a => k a
  | Err e => Err e
  end.

Declare Scope py_scope.
Delimit Scope py_scope with py.
Notation "x <- c ;; k" := (bind c (fun x => k))
  (at level 61, c at next level, right associativity) : py_scope.
Notation "' pat <- c ;; k" := (bind c (fun x => match x with pat => k end))
  (at level 61, pat pattern, c at next level, right associativity) : py_scope.
Local Open Scope py_scope.

(** [mapM f l]: apply [f] to the elements of [l] from the left; the first
    exception ends the traversal. *)
Definition mapM {A B : Type} (f : A -> result B) : list A -> result (list B) :=
  fix go (l : list A) : result (list B) :=
    match l with
    | [] => Ok []
    | a :: l' => b <- f a ;; bs <- go l' ;; Ok (b :: bs)
    end.

(** ** Python floats *)

(** The float operators [main.py] uses.  [float_of_int] is the conversion
    Python applies to an [int] operand of a float operation; it raises
    [OverflowError] when the integer is too large.  [fconst k] is the float
    of a literal such as [360.0], or of a small [int] operand ([1], [4096]),
    whose conversion cannot fail.  [fdiv] is the bare quotient; Python's [/]
    is [truediv] below. *)
Class PyFloat (F : Type) : Type := {
  fconst : Z -> F;
  float_of_int : Z -> result F;
  fsub : F -> F -> F;
  fmul : F -> F -> F;
  fdiv : F -> F -> F;
  feqb : F -> F -> bool;
  fltb : F -> F -> bool;
  pow2 : Z -> result F             (* [2.0 ** z] for an int [z] *)
}.

(** [math.pi], [math.sinh], [math.atan], [math.degrees]. *)
Class PyMath (F : Type) : Type := {
  math_pi : F;
  math_sinh : F -> result F;
  math_atan : F -> result F;
  math_degrees : F -> F
}.

(** Python's [a / b] on floats: [ZeroDivisionError] when [b == 0.0]. *)
Definition truediv {F : Type} {float_ops : PyFloat F} (a b : F) : result F :=
  if feqb b (fconst 0) then Err ZeroDivisionError else Ok (fdiv a b).

(** *** Binary64, as CPython computes *)

Module B64.

Local Open Scope float_scope.

(** Correctly rounded conversion of an integer (round half to even). *)
Definition of_Z (k : Z) : float :=
  SF2Prim (binary_normalize prec emax k 0 false).

Definition int_to_float (k : Z) : result float :=
  let f := of_Z k in
  if is_infinity f then Err OverflowError else Ok f.

(** [2.0 ** z]: the exponent is converted to a float first, which
    raises [OverflowError] for an [int] too large in either direction;
    the power is then exact while representable, raises [OverflowError]
    from [2.0 ** 1024] on, and is [0.0] once below the subnormals. *)
Definition pow_two (z : Z) : result float :=
  zf <- int_to_float z ;;
  if (1024 <=? z)%Z then Err OverflowError else Ok (Z.ldexp 1 z).

#[global] Instance arith : PyFloat float := {
  fconst := of_Z;
  float_of_int := int_to_float;
  fsub := PrimFloat.sub;
  fmul := PrimFloat.mul;
  fdiv := PrimFloat.div;
  feqb := PrimFloat.eqb;
  fltb := PrimFloat.ltb;
  pow2 := pow_two
}.

(** The C library's [sinh] and [atan] are not part of the program; the
    [math] module wraps them with the checks of [math_1]. *)
Record Libm : Type := {
  libm_sinh : float -> float;
  libm_atan : float -> float
}.

Definition pi : float := 0x1.921fb54442d18p+1.

(** [math_1]: a NaN from a non-NaN argument is a [ValueError]; an infinity
    from a finite argument is an [OverflowError] when the function may
    overflow ([sinh]) and a [ValueError] otherwise ([atan]). *)
Definition math_1 (func : float -> float) (can_overflow : bool) (x : float)
  : result float :=
  let r := func x in
  if is_nan r && negb (is_nan x) then Err ValueError
  else if is_infinity r && is_finite x then
    (if can_overflow then Err OverflowError else Err ValueError)
  else Ok r.

Definition rad_to_deg : float := 180 / pi.

Definition math (m : Libm) : PyMath float := {|
  math_pi := pi;
  math_sinh := math_1 (libm_sinh m) true;
  math_atan := math_1 (libm_atan m) false;
  math_degrees := fun x => x * rad_to_deg
|}.

End B64.

(** *** Exact arithmetic *)

Module Exact.

Local Open Scope R_scope.

Definition eqb (a b : R) : bool := if Req_dec_T a b then true else false.
Definition ltb (a b : R) : bool := if Rlt_dec a b then true else false.

#[global] Instance arith : PyFloat R := {
  fconst := IZR;
  float_of_int := fun k => Ok (IZR k);
  fsub := Rminus;
  fmul := Rmult;
  fdiv := Rdiv;
  feqb := eqb;
  fltb := ltb;
  pow2 := fun z => Ok (powerRZ 2 z)
}.

End Exact.

(** ** shapely geometries *)

Section Geometry.

Variable F : Type.

Definition coord : Type := (F * F)%type.

Inductive multi_kind : Type :=
| MultiPoint | MultiLineString | MultiPolygon | GeometryCollection.

(** One case per geometry kind.  A [Point] holds no coordinate when empty
    and one otherwise; a [Polygon] has its shell and its holes; the four
    multi-part kinds hold their parts. *)
Inductive Geometry : Type :=
| Point (coords : list coord)
| LineString (coords : list coord)
| LinearRing (coords : list coord)
| Polygon (exterior : list coord) (interiors : list (list coord))
| Multi (kind : multi_kind) (geoms : list Geometry).

(** Induction with the parts of a multi-part geometry as hypotheses. *)
Definition Geometry_rect' (P : Geometry -> Type)
    (HPoint : forall cs, P (Point cs))
    (HLine : forall cs, P (LineString cs))
    (HRing : forall cs, P (LinearRing cs))
    (HPoly : forall ext ints, P (Polygon ext ints))
    (HMulti : forall k gs,
        (fix all (l : list Geometry) : Type :=
           match l with [] => unit | g :: l' => (P g * all l')%type end) gs ->
        P (Multi k gs))
  : forall g, P g :=
  fix rec (g : Geometry) : P g :=
    match g with
    | Point cs => HPoint cs
    | LineString cs => HLine cs
    | LinearRing cs => HRing cs
    | Polygon ext ints => HPoly ext ints
    | Multi k gs =>
        HMulti k gs
          ((fix recs (l : list Geometry) :
              (fix all (l : list Geometry) : Type :=
                 match l with [] => unit | g :: l' => (P g * all l')%type end) l :=
              match l with
              | [] => tt
              | g :: l' => (rec g, recs l')
              end) gs)
    end.

(** All the coordinates of a geometry, in storage order. *)
Fixpoint coords_of (g : Geometry) : list coord :=
  match g with
  | Point cs | LineString cs | LinearRing cs => cs
  | Polygon ext ints => ext ++ List.concat ints
  | Multi _ gs => flat_map coords_of gs
  end.

(** [geom.is_empty] *)
Fixpoint is_empty (g : Geometry) : bool :=
  match g with
  | Point cs | LineString cs | LinearRing cs =>
      match cs with [] => true | _ => false end
  | Polygon ext _ => match ext with [] => true | _ => false end
  | Multi _ gs => forallb is_empty gs
  end.

(** [shapely.ops.transform(func, geom)]: a new geometry of the same type
    from the transformed coordinates.  [func] is read coordinate by
    coordinate, shell before holes, parts in order (shapely first offers
    [func] whole coordinate sequences; [affine_transform_func] answers
    that with a [TypeError] and is then called per coordinate); an
    exception of [func] propagates; an empty geometry has no coordinate
    and comes back as it is. *)
Fixpoint transform (func : coord -> result coord) (geom : Geometry)
  : result Geometry :=
  match geom with
  | Point cs => cs' <- mapM func cs ;; Ok (Point cs')
  | LineString cs => cs' <- mapM func cs ;; Ok (LineString cs')
  | LinearRing cs => cs' <- mapM func cs ;; Ok (LinearRing cs')
  | Polygon ext ints =>
      shell <- mapM func ext ;;
      holes <- mapM (mapM func) ints ;;
      Ok (Polygon shell holes)
  | Multi k gs => gs' <- mapM (transform func) gs ;; Ok (Multi k gs')
  end.

(** The same traversal for a function that cannot raise. *)
Fixpoint map_coords (f : coord -> coord) (geom : Geometry) : Geometry :=
  match geom with
  | Point cs => Point (map f cs)
  | LineString cs => LineString (map f cs)
  | LinearRing cs => LinearRing (map f cs)
  | Polygon ext ints => Polygon (map f ext) (map (map f) ints)
  | Multi k gs => Multi k (map (map_coords f) gs)
  end.

Context {float_ops : PyFloat F}.

(** The coordinates of a ring as the [LinearRing] constructor stores
    them: the first one is repeated at the end unless the last one given
    already equals it, on both axes, as floats compare ([!=] is true of a
    NaN). *)
Definition closed_ring (cs : list coord) : list coord :=
  match cs with
  | [] => []
  | first :: _ =>
      let final := last cs first in
      if feqb (fst first) (fst final) && feqb (snd first) (snd final)
      then cs
      else cs ++ [first]
  end.

(** [shapely.geometry.box(minx, miny, maxx, maxy)]: [Polygon] of the four
    corners, counter-clockwise from the lower right one.  The ring has
    five coordinates, and four when [maxx == minx], the fourth corner
    then closing it. *)
Definition box (minx miny maxx maxy : F) : Geometry :=
  Polygon
    (closed_ring [(maxx, miny); (maxx, maxy); (minx, maxy); (minx, miny)]) [].

(** The envelope [env] grown to take in the coordinate [c]. *)
Definition expand (env : F * F * F * F) (c : coord) : F * F * F * F :=
  let '(minx, miny, maxx, maxy) := env in
  let '(x, y) := c in
  (if fltb x minx then x else minx,
   if fltb y miny then y else miny,
   if fltb maxx x then x else maxx,
   if fltb maxy y then y else maxy).

(** [minx, miny, maxx, maxy = geom.bounds]: the envelope of the
    coordinates, grown one coordinate at a time from the first.  The empty
    geometry has no coordinate to start from; its bounds are the empty
    tuple in shapely 1, whose unpacking into four names raises
    [ValueError], which is what is modelled (shapely 2 answers four NaNs).
    Every statement below that reads bounds assumes them given. *)
Definition bounds (g : Geometry) : result (F * F * F * F) :=
  match coords_of g with
  | [] => Err ValueError
  | (x, y) :: cs => Ok (fold_left expand cs (x, y, x, y))
  end.

End Geometry.

Arguments Point {F} coords.
Arguments LineString {F} coords.
Arguments LinearRing {F} coords.
Arguments Polygon {F} exterior interiors.
Arguments Multi {F} kind geoms.

(** ** Records of the pipeline *)

Section Records.

Variables F Raw Json : Type.

(** Attribute values of a source record. *)
Inductive scalar : Type :=
| PStr (s : string)
| PInt (k : Z)
| PFloat (f : F)
| PBool (b : bool)
| PNone.

(** [feat['properties']]: an ordered mapping from names to scalars. *)
Definition Props : Type := list (string * scalar).

(** A record read by fiona: [feat['geometry']], [feat['properties']]. *)
Record Feature : Type := {
  geometry : Raw;
  properties : Props
}.

(** An opened collection: [src.name] and the records iteration yields. *)
Record Collection : Type := {
  name : option string;
  records : list Feature
}.

(** The dict appended to [features]: ["geometry"] and ["properties"]. *)
Record TileFeature : Type := {
  tile_geometry : Json;
  tile_properties : Props
}.

(** The dict appended to [layers]: ["name"] and ["features"]. *)
Record Layer : Type := {
  layer_name : string;
  layer_features : list TileFeature
}.

End Records.

Arguments PStr {F} s.
Arguments PInt {F} k.
Arguments PFloat {F} f.
Arguments PBool {F} b.
Arguments PNone {F}.

(** What [main.py] calls and does not define: pyproj's transformer from
    EPSG:4326 to EPSG:3857, read one coordinate at a time, *)
Class Pyproj (F : Type) : Type := {
  transformer_to_3857 : coord F -> result (coord F)
}.

(** and fiona, shapely's constructors and predicates, and the encoder. *)
Class Externals (F Raw Json Pbf : Type) : Type := {
  (** [fiona.open(path, 'r')] *)
  fiona_open : string -> result (Collection F Raw);
  (** [shapely.geometry.shape] *)
  shape : Raw -> result (Geometry F);
  (** [geom.intersects(other)] and [geom.intersection(other)] *)
  intersects : Geometry F -> Geometry F -> result bool;
  intersection : Geometry F -> Geometry F -> result (Geometry F);
  (** [shapely.geometry.mapping] *)
  mapping : Geometry F -> Json;
  (** [mapbox_vector_tile.encode] *)
  encode : list (Layer F Json) -> result Pbf
}.

(** ** The program *)

Definition SHAPEFILE_PATH : string := "shp/test_shp.shp".

Definition TILE_EXTENT : Z := 4096.

(** [a or b] on an optional string: [None] and the empty string are falsy. *)
Definition or_default (a : option string) (b : string) : string :=
  match a with
  | None => b
  | Some s => if String.eqb s "" then b else s
  end.

(** [str(k)] of an [int], as the f-string of the file name formats it. *)
Definition str (k : Z) : string := DecimalString.NilZero.string_of_int (Z.to_int k).

Section Program.

Context {F Raw Json Pbf : Type}.
Context {float_ops : PyFloat F} {math_ops : PyMath F} {proj : Pyproj F} {ext : Externals F Raw Json Pbf}.

Definition tile_to_bbox (z x y : Z) : result (Geometry F) :=
  n <- pow2 z ;;
  xf <- float_of_int x ;;
  q <- truediv xf n ;;
  let lon_deg_left := fsub (fmul q (fconst 360)) (fconst 180) in
  xf' <- float_of_int (x + 1) ;;
  q' <- truediv xf' n ;;
  let lon_deg_right := fsub (fmul q' (fconst 360)) (fconst 180) in
  let lat_deg_from_tile (y _z : Z) : result F :=
    yf <- float_of_int (2 * y) ;;
    r <- truediv yf n ;;
    s <- math_sinh (fmul math_pi (fsub (fconst 1) r)) ;;
    lat_rad <- math_atan s ;;
    Ok (math_degrees lat_rad) in
  lat_deg_top <- lat_deg_from_tile y z ;;
  lat_deg_bottom <- lat_deg_from_tile (y + 1)%Z z ;;
  let bbox_lonlat := box lon_deg_left lat_deg_bottom lon_deg_right lat_deg_top in
  let bbox_mercator := transform transformer_to_3857 bbox_lonlat in
  bbox_mercator.

Definition geometry_to_tile_coords (geom bbox : Geometry F)
  : result (Geometry F) :=
  '(minx, miny, maxx, maxy) <- bounds bbox ;;
  scale_x <- truediv (fconst TILE_EXTENT) (fsub maxx minx) ;;
  scale_y <- truediv (fconst TILE_EXTENT) (fsub maxy miny) ;;
  let affine_transform_func (c : coord F) : result (coord F) :=
    let '(x, y) := c in
    let tx := fmul (fsub x minx) scale_x in
    let ty := fmul (fsub maxy y) scale_y in
    Ok (tx, ty) in
  let transformed_geom := transform affine_transform_func geom in
  transformed_geom.

(** The body of [for feat in src] for one record: [None] when it ends
    in [continue], the dict it appends otherwise; an exception leaves
    the loop. *)
Definition for_feat_body (tile_bbox : Geometry F) (feat : Feature F Raw)
  : result (option (TileFeature F Json)) :=
  geom <- shape (geometry feat) ;;
  geom_3857 <- transform transformer_to_3857 geom ;;
  hit <- intersects geom_3857 tile_bbox ;;
  if negb hit then Ok None
  else
    clipped_geom <- intersection geom_3857 tile_bbox ;;
    if is_empty clipped_geom then Ok None
    else
      tile_geom <- geometry_to_tile_coords clipped_geom tile_bbox ;;
      let tile_geom_geojson := mapping tile_geom in
      Ok (Some {| tile_geometry := tile_geom_geojson;
                  tile_properties := properties feat |}).

(** The loop, with the list [features] threaded through:
    [features.append] puts one more element at its end. *)
Fixpoint for_feat_in (tile_bbox : Geometry F) (src : list (Feature F Raw))
    (features : list (TileFeature F Json))
  : result (list (TileFeature F Json)) :=
  match src with
  | [] => Ok features
  | feat :: rest =>
      appended <- for_feat_body tile_bbox feat ;;
      match appended with
      | None => for_feat_in tile_bbox rest features
      | Some d => for_feat_in tile_bbox rest (features ++ [d])
      end
  end.

(** [create_pbf_tile] up to the test [if not layers]: the value of
    [layers] there. *)
Definition tile_layers (shapefile_path : string) (z x y : Z)
  : result (list (Layer F Json)) :=
  tile_bbox <- tile_to_bbox z x y ;;
  let layers := [] in
  src <- fiona_open shapefile_path ;;
  let layer_name := or_default (name src) "layer" in
  let features := [] in
  features <- for_feat_in tile_bbox (records src) features ;;
  match features with
  | [] => Ok layers
  | _ :: _ =>
      Ok (layers ++ [ {| layer_name := layer_name;
                         layer_features := features |} ])
  end.

(** [None] of Python is [None] here; the encoded tile is [Some]. *)
Definition create_pbf_tile (shapefile_path : string) (z x y : Z)
  : result (option Pbf) :=
  layers <- tile_layers shapefile_path z x y ;;
  match layers with
  | [] => Ok None
  | _ :: _ => pbf_tile <- encode layers ;; Ok (Some pbf_tile)
  end.

(** The response of the tile route. *)
Record StreamingResponse : Type := {
  content : Pbf;
  media_type : string;
  content_disposition : string
}.

Definition serve_pbf_tile (z x y : Z) : result StreamingResponse :=
  pbf_tile <- create_pbf_tile SHAPEFILE_PATH z x y ;;
  match pbf_tile with
  | None => Err (HTTPException 204 "No Content")
  | Some tile =>
      Ok {| content := tile;
            media_type := "application/vnd.mapbox-vector-tile";
            content_disposition :=
              "inline; filename=tile_" ++ str z ++ "_" ++ str x ++ "_"
                ++ str y ++ ".pbf" |}
  end%string.

End Program.

(** ** The tile box as the specification words it *)

Section SlippyMap.

Context {F : Type} {float_ops : PyFloat F} {math_ops : PyMath F} {proj : Pyproj F}.

(** [c/n * 360 - 180] *)
Definition slippy_lon (n : F) (c : Z) : result F :=
  cf <- float_of_int c ;;
  q <- truediv cf n ;;
  Ok (fsub (fmul q (fconst 360)) (fconst 180)).

(** [degrees(atan(sinh(pi * (1 - 2*r/n))))] *)
Definition slippy_lat (n : F) (r : Z) : result F :=
  rf <- float_of_int (2 * r) ;;
  q <- truediv rf n ;;
  s <- math_sinh (fmul math_pi (fsub (fconst 1) q)) ;;
  a <- math_atan s ;;
  Ok (math_degrees a).



End SlippyMap.

(** ** What the specification says of one record *)

Section Survival.

Context {F Raw Json Pbf : Type}.
Context {float_ops : PyFloat F} {proj : Pyproj F} {ext : Externals F Raw Json Pbf}.

(** The geometry of a record, parsed and reprojected. *)
Definition reprojected (feat : Feature F Raw) : result (Geometry F) :=
  geom <- shape (geometry feat) ;;
  transform transformer_to_3857 geom.

(** The reprojected geometry intersects the box and its clip is not
    empty. *)
Definition survives (tile_bbox : Geometry F) (feat : Feature F Raw) : bool :=
  match reprojected feat with
  | Ok g =>
      match intersects g tile_bbox with
      | Ok true =>
          match intersection g tile_bbox with
          | Ok clipped => negb (is_empty clipped)
          | Err _ => false
          end
      | _ => false
      end
  | Err _ => false
  end.

(** [d] is the dict built from [feat]: the clip of its reprojected
    geometry, quantized and mapped, beside the record's own attributes. *)
Definition emitted_from (tile_bbox : Geometry F) (feat : Feature F Raw)
    (d : TileFeature F Json) : Prop :=
  exists g clipped q,
    reprojected feat = Ok g /\
    intersection g tile_bbox = Ok clipped /\
    geometry_to_tile_coords clipped tile_bbox = Ok q /\
    tile_geometry d = mapping q /\
    tile_properties d = properties feat.

(** The record goes through the loop body without an exception. *)
Definition processed (tile_bbox : Geometry F) (feat : Feature F Raw) : Prop :=
  exists r, for_feat_body tile_bbox feat = Ok r.

End Survival.

(** ** Ranges *)

Definition inside_b64 (env : float * float * float * float) (c : coord float)
  : bool :=
  let '(minx, miny, maxx, maxy) := env in
  ((minx <=? fst c) && (fst c <=? maxx) && (miny <=? snd c) && (snd c <=? maxy))%float.


Definition finite_env (env : float * float * float * float) : bool :=
  let '(minx, miny, maxx, maxy) := env in
  is_finite minx && is_finite miny && is_finite maxx && is_finite maxy.

(** ** Stand-ins for the collaborators *)

(** Binary64 doubles of what the program calls, enough to run it on point
    features: the C library and the transformer answer from a recording at
    the arguments of tiles 0/0/0 and 1/0/0 (off the recording, the leading
    term of each function), shapely's predicates are those of a point
    against a rectangle, a record without geometry is Python's [None]. *)
Module Recorded.

Local Open Scope float_scope.

Definition sinh_pi : float := 0x1.718f45d72e672p+3.      (* 11.548739357257748 *)
Definition atan_sinh_pi : float := 0x1.7c031862362b8p+0. (* 1.4844222297453324 *)

Definition libm : B64.Libm := {|
  B64.libm_sinh := fun x =>
    if x =? B64.pi then sinh_pi
    else if x =? - B64.pi then - sinh_pi
    else x;
  B64.libm_atan := fun x =>
    if x =? sinh_pi then atan_sinh_pi
    else if x =? - sinh_pi then - atan_sinh_pi
    else x
|}.

#[global] Instance math : PyMath float := B64.math libm.

Definition radius : float := 6378137.
Definition radians (deg : float) : float := deg * (B64.pi / 180).

Definition lat_max : float := 0x1.54345b1a549d7p+6.   (* 85.0511287798066 *)
Definition y_max : float := 0x1.31bf8457c1094p+24.    (* 20037508.342789248 *)
Definition y_45 : float := 0x1.571c45f1dc554p+22.     (* 5621521.486192066 *)

Definition mercator_y (lat : float) : float :=
  if lat =? lat_max then y_max
  else if lat =? - lat_max then - y_max
  else if lat =? 45 then y_45
  else if lat =? -45 then - y_45
  else radius * radians lat.

#[global] Instance pyproj : Pyproj float := {|
  transformer_to_3857 := fun c => Ok (radius * radians (fst c), mercator_y (snd c))
|}.

Definition Raw : Type := option (Geometry float).
Definition Json : Type := Geometry float.
Definition Pbf : Type := list (Layer float Json).

Definition point_intersects (g b : Geometry float) : result bool :=
  match g with
  | Point cs => env <- bounds b ;; Ok (existsb (inside_b64 env) cs)
  | _ => Err GEOSException
  end.

Definition point_intersection (g b : Geometry float)
  : result (Geometry float) :=
  match g with
  | Point cs => env <- bounds b ;; Ok (Point (filter (inside_b64 env) cs))
  | _ => Err GEOSException
  end.

Definition externals (src : Collection float Raw)
  : Externals float Raw Json Pbf := {|
  fiona_open := fun path =>
    if String.eqb path SHAPEFILE_PATH then Ok src else Err DriverError;
  shape := fun raw =>
    match raw with
    | None => Err AttributeError
    | Some g => Ok g
    end;
  intersects := point_intersects;
  intersection := point_intersection;
  mapping := fun g => g;
  encode := fun layers => Ok layers
|}.

(** Sample records. *)
Definition city (lon lat : float) (label : string) : Feature float Raw :=
  {| geometry := Some (Point [(lon, lat)]);
     properties := [("name"%string, PStr label); ("pop"%string, PInt 1)] |}.

Definition null_record : Feature float Raw :=
  {| geometry := None; properties := [("name"%string, PStr "void")] |}.

Definition origin : Feature float Raw := city 0 0 "origin".
Definition north_west : Feature float Raw := city (-90) 45 "nw".
Definition south_east : Feature float Raw := city 90 (-45) "se".

Definition shapefile (recs : list (Feature float Raw)) : Collection float Raw :=
  {| name := Some "test_shp"%string; records := recs |}.

(** The collection the runs read when they name no other. *)
#[global] Instance sample : Externals float Raw Json Pbf :=
  externals (shapefile [origin; north_west; south_east]).

(** Sample boxes and values: the box of tile 1/0/0 under the recording,
    the float just below 4096, a width of [2^-1070]. *)
Definition x_max : float := 0x1.31bf8457c1093p+24.    (* 20037508.342789244 *)

Definition north_west_tile : Geometry float :=
  Polygon [(0, 0); (0, y_max); (- x_max, y_max); (- x_max, 0); (0, 0)] [].

Definition world_tile : Geometry float :=
  Polygon [(x_max, - y_max); (x_max, y_max); (- x_max, y_max);
           (- x_max, - y_max); (x_max, - y_max)] [].

Definition just_below_extent : float := 0x1.fffffffffffffp+11.

End Recorded.

(** ** The quantizer as the specification words it *)

Section TileLocal.

Context {F : Type} {float_ops : PyFloat F}.

(** [extent / (hi - lo)] *)
Definition scale_factor (extent : Z) (lo hi : F) : F :=
  fdiv (fconst extent) (fsub hi lo).

(** [tx = (x - minX) * scaleX], [ty = (maxY - y) * scaleY] *)
Definition tile_local (extent : Z) (env : F * F * F * F) (c : coord F)
  : coord F :=
  let '(minx, miny, maxx, maxy) := env in
  (fmul (fsub (fst c) minx) (scale_factor extent minx maxx),
   fmul (fsub maxy (snd c)) (scale_factor extent miny maxy)).

End TileLocal.

(** A binary64 value, in its specification form, that is not a zero. *)
Definition nonzero (X : spec_float) : Prop := SFeqb X (S754_zero false) = false.

(** ** Geometry kinds and file names *)

(** [geom.geom_type] *)
Definition geom_type {F : Type} (g : Geometry F) : string :=
  match g with
  | Point _ => "Point"
  | LineString _ => "LineString"
  | LinearRing _ => "LinearRing"
  | Polygon _ _ => "Polygon"
  | Multi MultiPoint _ => "MultiPoint"
  | Multi MultiLineString _ => "MultiLineString"
  | Multi MultiPolygon _ => "MultiPolygon"
  | Multi GeometryCollection _ => "GeometryCollection"
  end.

(** The character [c] does not occur in [s]. *)
Fixpoint without_char (c : Ascii.ascii) (s : string) : bool :=
  match s with
  | EmptyString => true
  | String a s' => negb (Ascii.eqb a c) && without_char c s'
  end.

(** ** Binary64 as rounded real arithmetic *)

(** What is needed to read a binary64 operation as its exact result
    rounded to nearest, ties to even. *)
Section RoundingDefinitions.

Local Open Scope R_scope.

Definition bpow (e : Z) : R := powerRZ 2 e.






Definition finite_sf (x : spec_float) : Prop :=
  match x with
  | S754_zero _ | S754_finite _ _ _ => True
  | _ => False
  end.


(** Zero, or finite and positive. *)
Definition nonneg_sf (x : spec_float) : Prop :=
  match x with
  | S754_zero _ | S754_finite false _ _ => True
  | _ => False
  end.


End RoundingDefinitions.


(** * Properties *)

(** ** Traversals *)

Lemma mapM_pure {A B : Type} (f : A -> result B) (g : A -> B) (l : list A) :
  (forall a, In a l -> f a = Ok (g a)) -> mapM f l = Ok (map g l).
Proof.
  induction l as [|a l IH]; intros Hf; simpl; [reflexivity|].
  rewrite (Hf a (or_introl eq_refl)); simpl.
  rewrite IH; [reflexivity|].
  intros a' Ha'. apply Hf. right. exact Ha'.
Qed.

Lemma transform_pure {F : Type} (func : coord F -> result (coord F))
    (f : coord F -> coord F) :
  (forall c, func c = Ok (f c)) ->
  forall geom, transform func geom = Ok (map_coords f geom).
Proof.
  intros Hf geom.
  induction geom as [cs|cs|cs|ext ints|k gs IH] using Geometry_rect'; simpl.
  - rewrite (mapM_pure func f); auto.
  - rewrite (mapM_pure func f); auto.
  - rewrite (mapM_pure func f); auto.
  - rewrite (mapM_pure func f); auto. simpl.
    rewrite (mapM_pure (mapM func) (map f)); auto.
    intros ring _. apply mapM_pure; auto.
  - assert (Hgs : mapM (transform func) gs = Ok (map (map_coords f) gs)).
    { induction gs as [|g gs IHgs]; simpl; [reflexivity|].
      destruct IH as [Hg Hrest]. rewrite Hg; simpl.
      rewrite (IHgs Hrest). reflexivity. }
    rewrite Hgs. reflexivity.
Qed.

Lemma concat_map_map {A B : Type} (f : A -> B) (ll : list (list A)) :
  List.concat (map (map f) ll) = map f (List.concat ll).
Proof.
  induction ll as [|l ll IH]; simpl; [reflexivity|].
  rewrite map_app, IH. reflexivity.
Qed.

Lemma coords_of_map_coords {F : Type} (f : coord F -> coord F) (geom : Geometry F) :
  coords_of (map_coords f geom) = map f (coords_of geom).
Proof.
  induction geom as [cs|cs|cs|ext ints|k gs IH] using Geometry_rect'; simpl;
    try reflexivity.
  - rewrite map_app, concat_map_map. reflexivity.
  - induction gs as [|g gs IHgs]; simpl; [reflexivity|].
    destruct IH as [Hg Hrest]. rewrite map_app, Hg, (IHgs Hrest). reflexivity.
Qed.

Lemma filter_none {A : Type} (f : A -> bool) (l : list A) :
  (forall a, In a l -> f a = false) -> filter f l = [].
Proof.
  induction l as [|a l IH]; intros Hf; simpl; [reflexivity|].
  rewrite (Hf a (or_introl eq_refl)).
  apply IH. intros a' Hin. apply Hf. right. exact Hin.
Qed.

(** A property checked on every integer of a range. *)
Lemma checked_on_range (p : Z -> bool) (lo : Z) (count : nat) :
  forallb (fun k => p (lo + Z.of_nat k)%Z) (seq 0 count) = true ->
  forall z, (lo <= z < lo + Z.of_nat count)%Z -> p z = true.
Proof.
  intros Hall z Hz. rewrite forallb_forall in Hall.
  replace z with (lo + Z.of_nat (Z.to_nat (z - lo)))%Z by lia.
  apply Hall. apply in_seq. lia.
Qed.

(** ** The tile box *)

Section TileBox.

Context {F : Type} {float_ops : PyFloat F} {math_ops : PyMath F} {proj : Pyproj F}.


End TileBox.

(** ** The loop over the records *)

Section Loop.

Context {F Raw Json Pbf : Type}.
Context {float_ops : PyFloat F} {math_ops : PyMath F} {proj : Pyproj F} {ext : Externals F Raw Json Pbf}.

Implicit Types (tile_bbox : Geometry F) (feat : Feature F Raw).
Implicit Types (src : list (Feature F Raw)) (d : TileFeature F Json).

(** The list handed to the loop only grows at its end. *)
Lemma for_feat_in_acc tile_bbox src (acc : list (TileFeature F Json)) :
  for_feat_in tile_bbox src acc =
  (out <- for_feat_in tile_bbox src [] ;; Ok (acc ++ out)).
Proof.
  revert acc. induction src as [|feat rest IH]; intros acc; simpl.
  - rewrite app_nil_r. reflexivity.
  - destruct (for_feat_body tile_bbox feat) as [[d|]|e]; simpl.
    + rewrite (IH (acc ++ [d])), (IH [d]).
      destruct (for_feat_in tile_bbox rest []) as [out|e]; simpl;
        [rewrite <- app_assoc|]; reflexivity.
    + apply IH.
    + reflexivity.
Qed.

Lemma body_appends tile_bbox feat d :
  for_feat_body tile_bbox feat = Ok (Some d) ->
  survives tile_bbox feat = true /\ emitted_from tile_bbox feat d.
Proof.
  unfold for_feat_body, survives, emitted_from.
  assert (Hrep : reprojected feat =
                 (geom <- shape (geometry feat) ;;
                  transform transformer_to_3857 geom)) by reflexivity.
  destruct (shape (geometry feat)) as [geom|e]; simpl in *; [|discriminate].
  destruct (transform transformer_to_3857 geom) as [g|e]; simpl;
    [|discriminate].
  rewrite Hrep.
  destruct (intersects g tile_bbox) as [[|]|e]; simpl; try discriminate.
  destruct (intersection g tile_bbox) as [clipped|e] eqn:Hclip; simpl;
    [|discriminate].
  destruct (is_empty clipped) eqn:Hempty; simpl; [discriminate|].
  destruct (geometry_to_tile_coords clipped tile_bbox) as [q|e] eqn:Hq; simpl;
    [|discriminate].
  intros Hd. injection Hd as <-. split; [reflexivity|].
  exists g, clipped, q. simpl. repeat split; auto.
Qed.

Lemma body_continues tile_bbox feat :
  for_feat_body tile_bbox feat = Ok None -> survives tile_bbox feat = false.
Proof.
  unfold for_feat_body, survives, reprojected.
  destruct (shape (geometry feat)) as [geom|e]; simpl; [|discriminate].
  destruct (transform transformer_to_3857 geom) as [g|e]; simpl; [|discriminate].
  destruct (intersects g tile_bbox) as [[|]|e]; simpl; try discriminate;
    [|reflexivity].
  destruct (intersection g tile_bbox) as [clipped|e]; simpl; [|discriminate].
  destruct (is_empty clipped); simpl; [reflexivity|].
  destruct (geometry_to_tile_coords clipped tile_bbox); simpl; discriminate.
Qed.

(** A record whose geometry does not parse or reproject raises in the
    loop body. *)
Lemma body_raises tile_bbox feat e :
  reprojected feat = Err e -> for_feat_body tile_bbox feat = Err e.
Proof.
  unfold for_feat_body, reprojected.
  destruct (shape (geometry feat)) as [geom|e']; simpl.
  - intros ->. reflexivity.
  - intros Heq. injection Heq as ->. reflexivity.
Qed.

(** A record whose reprojected geometry does not intersect the box is
    passed over. *)
Lemma body_outside tile_bbox feat g :
  reprojected feat = Ok g -> intersects g tile_bbox = Ok false ->
  for_feat_body tile_bbox feat = Ok None.
Proof.
  unfold for_feat_body, reprojected.
  destruct (shape (geometry feat)) as [geom|e]; simpl; [|discriminate].
  intros Hg Hmiss. rewrite Hg. simpl. rewrite Hmiss. reflexivity.
Qed.

(** The loop in one piece: when every record is processed, the list it
    returns pairs off, in order, with the surviving records. *)
Lemma for_feat_in_filter tile_bbox src :
  Forall (processed tile_bbox) src ->
  exists out,
    for_feat_in tile_bbox src [] = Ok out /\
    Forall2 (fun feat d => for_feat_body tile_bbox feat = Ok (Some d))
            (filter (survives tile_bbox) src) out.
Proof.
  induction 1 as [|feat rest [r Hr] _ [out [Hout Hpairs]]]; simpl.
  - exists []. split; [reflexivity|constructor].
  - rewrite Hr. simpl. destruct r as [d|].
    + destruct (body_appends _ _ Hr) as [Hs _]. rewrite Hs.
      rewrite for_feat_in_acc, Hout. simpl.
      exists (d :: out). split; [reflexivity|]. constructor; assumption.
    + rewrite (body_continues _ _ Hr). exists out. split; assumption.
Qed.

(** The first record that raises ends the loop with its exception. *)
Lemma for_feat_in_raises tile_bbox before feat after e acc :
  Forall (processed tile_bbox) before ->
  for_feat_body tile_bbox feat = Err e ->
  for_feat_in tile_bbox (before ++ feat :: after) acc = Err e.
Proof.
  intros Hbefore Hfeat. revert acc.
  induction Hbefore as [|p before [r Hr] _ IH]; intros acc; simpl.
  - rewrite Hfeat. reflexivity.
  - rewrite Hr. simpl. destruct r; apply IH.
Qed.

(** A loop that returns has processed every record. *)
Lemma for_feat_in_processed tile_bbox src acc out :
  for_feat_in tile_bbox src acc = Ok out -> Forall (processed tile_bbox) src.
Proof.
  revert acc. induction src as [|feat rest IH]; intros acc; simpl.
  - constructor.
  - destruct (for_feat_body tile_bbox feat) as [r|e] eqn:Hr; simpl;
      [|discriminate].
    intros Hrest. constructor; [exists r; exact Hr|].
    destruct r; eapply IH; eassumption.
Qed.

(** C3 (amended).  For every list of records and every tile box, when
    each record is processed without an exception the loop returns, and
    what it returns pairs off, in the order of the input, with exactly
    the records whose reprojected geometry intersects the box and whose
    clip is not empty: each output dict is the one built from its
    record.  A record that does not intersect, or whose clip is empty, is
    not in that sublist and so has no dict.  When a record raises, the
    loop has no output. *)
Theorem C3_output_is_the_surviving_subsequence tile_bbox src :
  Forall (processed tile_bbox) src ->
  exists out,
    for_feat_in tile_bbox src [] = Ok out /\
    Forall2 (emitted_from tile_bbox) (filter (survives tile_bbox) src) out.
Proof.
  intros Hsrc.
  destruct (for_feat_in_filter Hsrc) as [out [Hout Hpairs]].
  exists out. split; [exact Hout|]. clear Hout.
  induction Hpairs as [|feat d kept out' Hd _ IH]; constructor.
  - apply (body_appends _ _ Hd).
  - exact IH.
Qed.

(** C9.  When each record is processed without an exception the loop
    returns, and the attribute mappings of its output, in order, are the
    attribute mappings of the surviving records, each one whole and as it
    was read: nothing is added, dropped, reordered or changed. *)
Theorem C9_attributes_pass_through tile_bbox src :
  Forall (processed tile_bbox) src ->
  exists out,
    for_feat_in tile_bbox src [] = Ok out /\
    map (@tile_properties F Json) out =
    map (@properties F Raw) (filter (survives tile_bbox) src).
Proof.
  intros Hsrc.
  destruct (for_feat_in_filter Hsrc) as [out [Hout Hpairs]].
  exists out. split; [exact Hout|]. clear Hout.
  induction Hpairs as [|feat d kept out' Hd _ IH]; simpl; [reflexivity|].
  destruct (body_appends _ _ Hd) as [_ [g [clipped [q Hemit]]]].
  f_equal; [apply Hemit|exact IH].
Qed.

End Loop.

(** ** The tile *)

Section Tile.

Context {F Raw Json Pbf : Type}.
Context {float_ops : PyFloat F} {math_ops : PyMath F} {proj : Pyproj F} {ext : Externals F Raw Json Pbf}.

Lemma or_default_none (b : string) : or_default None b = b.
Proof. reflexivity. Qed.

Lemma or_default_empty (b : string) : or_default (Some ""%string) b = b.
Proof. reflexivity. Qed.

Lemma or_default_some (s b : string) :
  s <> ""%string -> or_default (Some s) b = s.
Proof.
  intros Hs. unfold or_default.
  destruct (String.eqb_spec s ""); [contradiction|reflexivity].
Qed.

(** [tile_layers] once the box is computed and the collection opened. *)
Lemma tile_layers_opened path z x y tile_bbox (src : Collection F Raw) :
  tile_to_bbox z x y = Ok tile_bbox ->
  fiona_open path = Ok src ->
  tile_layers path z x y =
  (features <- for_feat_in tile_bbox (records src) [] ;;
   match features with
   | [] => Ok []
   | _ :: _ =>
       Ok [ {| layer_name := or_default (name src) "layer";
               layer_features := features |} ]
   end).
Proof.
  intros Hbox Hopen. unfold tile_layers. rewrite Hbox. simpl.
  rewrite Hopen. reflexivity.
Qed.

(** C5 (amended).  Nothing in [create_pbf_tile] catches an exception.
    When the box is computed, the collection opened, the records before
    [feat] processed, and the geometry of [feat] fails to parse or to
    reproject with exception [e], the call raises [e]: no tile is
    produced and the records after [feat] are not looked at. *)
Theorem C5_failing_record_aborts_the_tile
    path z x y tile_bbox (src : Collection F Raw) before feat after e :
  tile_to_bbox z x y = Ok tile_bbox ->
  fiona_open path = Ok src ->
  records src = before ++ feat :: after ->
  Forall (processed tile_bbox) before ->
  reprojected feat = Err e ->
  create_pbf_tile path z x y = Err e.
Proof.
  intros Hbox Hopen Hrecs Hbefore Hfail.
  unfold create_pbf_tile.
  erewrite tile_layers_opened by eassumption. rewrite Hrecs.
  erewrite for_feat_in_raises; [reflexivity|exact Hbefore|].
  apply body_raises. exact Hfail.
Qed.

(** C7.  When the box is computed and the collection opened:
    if every record is processed and none survives, [layers] is empty
    and [create_pbf_tile] returns [None], it does not raise; this is the
    case in particular when the reprojected geometry of every record
    misses the box; and the route then answers 204 for the configured
    shapefile. *)
Theorem C7_empty_tile_returns_none
    path z x y tile_bbox (src : Collection F Raw) :
  tile_to_bbox z x y = Ok tile_bbox ->
  fiona_open path = Ok src ->
  (Forall (processed tile_bbox) (records src) ->
   (forall feat, In feat (records src) -> survives tile_bbox feat = false) ->
   tile_layers path z x y = Ok [] /\
   create_pbf_tile path z x y = Ok None /\
   (path = SHAPEFILE_PATH ->
    serve_pbf_tile z x y = Err (HTTPException 204 "No Content")))
  /\
  ((forall feat, In feat (records src) ->
      exists g, reprojected feat = Ok g /\ intersects g tile_bbox = Ok false) ->
   tile_layers path z x y = Ok [] /\
   create_pbf_tile path z x y = Ok None).
Proof.
  intros Hbox Hopen.
  assert (Hgeneral :
    Forall (processed tile_bbox) (records src) ->
    (forall feat, In feat (records src) -> survives tile_bbox feat = false) ->
    tile_layers path z x y = Ok [] /\ create_pbf_tile path z x y = Ok None).
  { intros Hproc Hnone.
    assert (Hlayers : tile_layers path z x y = Ok []).
    { erewrite tile_layers_opened by eassumption.
      destruct (for_feat_in_filter Hproc) as [out [Hout Hpairs]].
      rewrite Hout. simpl.
      replace (filter (survives tile_bbox) (records src)) with
        (@nil (Feature F Raw)) in Hpairs.
      - inversion Hpairs. reflexivity.
      - symmetry. apply filter_none. exact Hnone. }
    split; [exact Hlayers|].
    unfold create_pbf_tile. rewrite Hlayers. reflexivity. }
  split.
  - intros Hproc Hnone. destruct (Hgeneral Hproc Hnone) as [Hlayers Hnone'].
    repeat split; try assumption.
    intros ->. unfold serve_pbf_tile. rewrite Hnone'. reflexivity.
  - intros Hmiss. apply Hgeneral.
    + apply Forall_forall. intros feat Hin.
      destruct (Hmiss feat Hin) as [g [Hg Hout]].
      exists None. exact (body_outside tile_bbox feat Hg Hout).
    + intros feat Hin. destruct (Hmiss feat Hin) as [g [Hg Hout]].
      exact (body_continues _ _ (body_outside tile_bbox feat Hg Hout)).
Qed.

(** C10.  Whatever [tile_layers] returns is either empty, and then
    [create_pbf_tile] returns [None] without calling the encoder, or one
    single layer, and then [create_pbf_tile] is the encoder applied to
    that one-element list; the layer holds a non-empty feature list and
    is named [src.name or 'layer']: the name of the collection, and
    ['layer'] when that name is [None] or empty. *)
Theorem C10_one_layer_named_after_the_source path z x y layers :
  tile_layers path z x y = Ok layers ->
  (layers = [] /\ create_pbf_tile path z x y = Ok None)
  \/
  (exists (src : Collection F Raw) d features,
      fiona_open path = Ok src /\
      layers = [ {| layer_name := or_default (name src) "layer";
                    layer_features := d :: features |} ] /\
      create_pbf_tile path z x y =
        (pbf_tile <- encode layers ;; Ok (Some pbf_tile)) /\
      (name src = None \/ name src = Some ""%string ->
       or_default (name src) "layer" = "layer"%string) /\
      (forall s, name src = Some s -> s <> ""%string ->
                 or_default (name src) "layer" = s)).
Proof.
  intros Hlayers. unfold create_pbf_tile. rewrite Hlayers. simpl.
  unfold tile_layers in Hlayers.
  destruct (tile_to_bbox z x y) as [tile_bbox|e]; simpl in Hlayers;
    [|discriminate].
  destruct (fiona_open path) as [src|e]; simpl in Hlayers; [|discriminate].
  destruct (for_feat_in tile_bbox (records src) []) as [[|d features]|e];
    simpl in Hlayers; try discriminate; injection Hlayers as <-.
  - left. split; reflexivity.
  - right. exists src, d, features. repeat split.
    + intros [-> | ->]; reflexivity.
    + intros s -> Hs. apply or_default_some. exact Hs.
Qed.

End Tile.

(** ** Binary64 facts *)

Section Binary64.

Local Open Scope float_scope.

Lemma finite_cases (x : float) :
  is_finite x = true ->
  (exists s, Prim2SF x = S754_zero s) \/ (exists s m e, Prim2SF x = S754_finite s m e).
Proof.
  unfold is_finite. rewrite negb_true_iff, orb_false_iff. intros [Hnan Hinf].
  unfold Prim2SF. rewrite Hnan, Hinf.
  destruct (is_zero x); [left; eexists; reflexivity|].
  destruct (Z.frexp x) as [r ex].
  destruct (shr_fexp _ _ _ _ _) as [mrs e'].
  destruct (shr_m mrs); [left|right|left]; repeat eexists.
Qed.

Lemma sub_self_SF (X : spec_float) :
  (exists s, X = S754_zero s) \/ (exists s m e, X = S754_finite s m e) ->
  SF64sub X X = S754_zero false.
Proof.
  intros [[s ->]|[s [m [e ->]]]].
  - destruct s; reflexivity.
  - unfold SF64sub, SFsub. rewrite Z.min_id.
    unfold shl_align. rewrite Z.sub_diag. simpl fst.
    replace (cond_Zopp s (Z.pos m) - cond_Zopp s (Z.pos m))%Z with 0%Z by lia.
    reflexivity.
Qed.

(** [(y - y) * s == 0] for finite [y] and [s]. *)
Lemma sub_self_mul (y s : float) :
  is_finite y = true -> is_finite s = true -> ((y - y) * s =? 0) = true.
Proof.
  intros Hy Hs.
  rewrite eqb_spec, mul_spec, sub_spec.
  rewrite (sub_self_SF (finite_cases y Hy)).
  destruct (finite_cases s Hs) as [[b ->]|[b [m [e ->]]]]; reflexivity.
Qed.

Lemma SFeqb_finite sx mx ex sy my ey :
  SFeqb (S754_finite sx mx ex) (S754_finite sy my ey) = true ->
  sx = sy /\ mx = my /\ ex = ey.
Proof.
  unfold SFeqb, SFcompare.
  change (Pos.compare_cont Eq mx my) with (Pos.compare mx my).
  destruct sx, sy; try discriminate;
    destruct (Z.compare_spec ex ey) as [->|_|_]; try discriminate;
    destruct (Pos.compare_spec mx my) as [->|_|_]; try discriminate; auto.
Qed.

(** Equal finite floats have a zero difference. *)
Lemma sub_eq_zero (x y : float) :
  is_finite x = true -> is_finite y = true ->
  (x =? y) = true -> (x - y =? 0) = true.
Proof.
  intros Hx Hy. rewrite !eqb_spec, sub_spec.
  destruct (finite_cases x Hx) as [[sx ->]|[sx [mx [ex ->]]]];
    destruct (finite_cases y Hy) as [[sy ->]|[sy [my [ey ->]]]].
  - destruct sx, sy; reflexivity.
  - destruct sy; discriminate.
  - destruct sx; discriminate.
  - intros Heq. destruct (SFeqb_finite _ _ _ _ _ _ Heq) as [-> [-> ->]].
    rewrite sub_self_SF; [reflexivity|]. right. repeat eexists.
Qed.

(** *** A difference of two distinct floats is not zero *)

Local Open Scope Z_scope.

Lemma digits2_log2 (p : positive) : Z.pos (digits2_pos p) = Z.log2 (Z.pos p) + 1.
Proof.
  assert (Hsize : digits2_pos p = Pos.size p) by (induction p; simpl; congruence).
  rewrite Hsize. change (Z.pos (Pos.size p)) with (Z.log2 (Z.pos p~0)).
  rewrite Pos2Z.inj_xO, Z.log2_double; lia.
Qed.

Lemma shr_1_half (mrs : shr_record) :
  0 <= shr_m mrs -> shr_m (shr_1 mrs) = shr_m mrs / 2.
Proof.
  destruct mrs as [m r s]. simpl. intros Hm.
  destruct m as [|[p|p|]|p]; cbn [shr_m shr_1]; try lia; try reflexivity.
  - apply Z.div_unique with 1; lia.
  - apply Z.div_unique with 0; lia.
Qed.

Lemma iter_shr_1 (p : positive) (mrs : shr_record) :
  0 <= shr_m mrs ->
  shr_m (SpecFloat.iter_pos shr_1 p mrs) = shr_m mrs / 2 ^ Z.pos p.
Proof.
  assert (Hpow : forall q, 0 < 2 ^ Z.pos q) by (intros q; apply Z.pow_pos_nonneg; lia).
  revert mrs. induction p as [p IH|p IH|]; intros mrs Hm; simpl SpecFloat.iter_pos.
  - assert (H1 : 0 <= shr_m (shr_1 mrs)).
    { rewrite shr_1_half by assumption. apply Z.div_pos; lia. }
    assert (H2 : 0 <= shr_m (SpecFloat.iter_pos shr_1 p (shr_1 mrs))).
    { rewrite IH by assumption. apply Z.div_pos; [lia|apply Hpow]. }
    rewrite IH, IH, shr_1_half by assumption.
    pose proof (Hpow p) as Hp.
    rewrite !Z.div_div by lia.
    f_equal. replace (Z.pos p~1) with (1 + Z.pos p + Z.pos p) by lia.
    rewrite !Z.pow_add_r by lia. change (2 ^ 1) with 2. ring.
  - assert (H2 : 0 <= shr_m (SpecFloat.iter_pos shr_1 p mrs)).
    { rewrite IH by assumption. apply Z.div_pos; [lia|apply Hpow]. }
    rewrite IH, IH by assumption.
    pose proof (Hpow p) as Hp.
    rewrite Z.div_div by lia. f_equal.
    replace (Z.pos p~0) with (Z.pos p + Z.pos p) by lia.
    rewrite Z.pow_add_r by lia. reflexivity.
  - rewrite shr_1_half by assumption. reflexivity.
Qed.

Lemma fexp64 (e : Z) : fexp prec emax e = Z.max (e - 53) (-1074).
Proof. reflexivity. Qed.

Lemma shr_m_of_loc (m : Z) (l : location) : shr_m (shr_record_of_loc m l) = m.
Proof. destruct l as [|[| |]]; reflexivity. Qed.

Lemma pos_ge_pow_digits (p : positive) : 2 ^ (Z.pos (digits2_pos p) - 1) <= Z.pos p.
Proof.
  rewrite digits2_log2. replace (Z.log2 (Z.pos p) + 1 - 1) with (Z.log2 (Z.pos p)) by lia.
  apply Z.log2_spec. lia.
Qed.

(** Shifting to the format's exponent keeps a positive mantissa positive
    when the exponent is not below the least one. *)
Lemma shr_fexp_pos (m e : Z) (l : location) :
  0 < m -> (-1074) <= e ->
  0 < shr_m (fst (shr_fexp prec emax m e l)) /\
  (-1074) <= snd (shr_fexp prec emax m e l).
Proof.
  intros Hm He. unfold shr_fexp, shr. rewrite fexp64.
  destruct m as [|p|p]; try lia. simpl Zdigits2.
  destruct (Z.max (Z.pos (digits2_pos p) + e - 53) (-1074) - e) as [|n|n] eqn:Hn;
    simpl fst; simpl snd; rewrite ?shr_m_of_loc; try (split; lia).
  rewrite iter_shr_1 by (rewrite shr_m_of_loc; lia).
  rewrite shr_m_of_loc. split; [|lia].
  assert (Hn' : Z.pos n = Z.pos (digits2_pos p) - 53) by lia.
  apply Z.div_str_pos. split; [apply Z.pow_pos_nonneg; lia|].
  apply Z.le_trans with (2 ^ (Z.pos (digits2_pos p) - 1)); [|apply pos_ge_pow_digits].
  apply Z.pow_le_mono_r; lia.
Qed.

Lemma round_nearest_even_ge (m : Z) (l : location) : m <= round_nearest_even m l.
Proof. destruct l as [|[| |]]; simpl; try lia. destruct (Z.even m); lia. Qed.

Lemma binary_round_aux_nonzero (s : bool) (m e : Z) (l : location) :
  0 < m -> (-1074) <= e -> nonzero (binary_round_aux prec emax s m e l).
Proof.
  intros Hm He. unfold binary_round_aux.
  destruct (shr_fexp_pos l Hm He) as [Hm1 He1].
  destruct (shr_fexp prec emax m e l) as [mrs1 e1]. simpl fst in Hm1. simpl snd in He1.
  pose proof (round_nearest_even_ge (shr_m mrs1) (loc_of_shr_record mrs1)) as Hge.
  assert (Hm2 : 0 < round_nearest_even (shr_m mrs1) (loc_of_shr_record mrs1)) by lia.
  destruct (shr_fexp_pos loc_Exact Hm2 He1) as [Hm3 _].
  destruct (shr_fexp prec emax _ e1 loc_Exact) as [mrs2 e2]. simpl fst in Hm3.
  destruct (shr_m mrs2) as [|p|p]; try lia.
  destruct (e2 <=? emax - prec); destruct s; reflexivity.
Qed.

Lemma shl_align_value (m : positive) (e e' : Z) :
  e' <= e ->
  Z.pos (fst (shl_align m e e')) = Z.pos m * 2 ^ (e - e') /\
  snd (shl_align m e e') = e'.
Proof.
  intros He. unfold shl_align.
  destruct (e' - e) as [|d|d] eqn:Hd; simpl fst; simpl snd; try lia.
  - replace (e - e') with 0 by lia. split; lia.
  - change (Pos.iter xO m d) with (shift_pos d m).
    rewrite shift_pos_correct. replace (e - e') with (Z.pos d) by lia.
    split; [|reflexivity]. change (Z.pow_pos 2 d) with (2 ^ Z.pos d). ring.
Qed.

Lemma digits_shl (m : positive) (e e' : Z) :
  e' <= e ->
  Z.pos (digits2_pos (fst (shl_align m e e'))) = Z.pos (digits2_pos m) + (e - e').
Proof.
  intros He. rewrite !digits2_log2.
  destruct (shl_align_value m He) as [-> _].
  rewrite Z.log2_mul_pow2 by lia. lia.
Qed.

Lemma binary_round_nonzero (s : bool) (m : positive) (e : Z) :
  (-1074) <= e -> nonzero (binary_round prec emax s m e).
Proof.
  intros He. unfold binary_round.
  destruct (shl_align m e (fexp prec emax (Z.pos (digits2_pos m) + e)))
    as [mz ez] eqn:Halign.
  apply binary_round_aux_nonzero; [lia|].
  unfold shl_align in Halign. rewrite fexp64 in Halign.
  destruct (Z.max (Z.pos (digits2_pos m) + e - 53) (-1074) - e) as [|d|d] eqn:Hd;
    injection Halign as <- <-; lia.
Qed.

Lemma binary_normalize_nonzero (m e : Z) (szero : bool) :
  m <> 0 -> (-1074) <= e -> nonzero (binary_normalize prec emax m e szero).
Proof.
  intros Hm He. destruct m as [|p|p]; [contradiction| |];
    apply binary_round_nonzero; exact He.
Qed.

(** A valid finite float is canonical: its exponent is the one its digits
    call for, and is not below the least one. *)
Lemma valid_finite (s : bool) (m : positive) (e : Z) :
  valid_binary (S754_finite s m e) = true ->
  Z.max (Z.pos (digits2_pos m) + e - 53) (-1074) = e.
Proof.
  unfold SpecFloat.valid_binary, bounded, canonical_mantissa.
  intros Hvalid. apply andb_true_iff in Hvalid. destruct Hvalid as [Hcanon _].
  apply Z.eqb_eq in Hcanon. rewrite fexp64 in Hcanon. exact Hcanon.
Qed.

(** Two valid finite floats with the same aligned mantissa are the same. *)
Lemma aligned_eq (ma mb : positive) (ea eb : Z) :
  Z.max (Z.pos (digits2_pos ma) + ea - 53) (-1074) = ea ->
  Z.max (Z.pos (digits2_pos mb) + eb - 53) (-1074) = eb ->
  fst (shl_align mb eb (Z.min eb ea)) = fst (shl_align ma ea (Z.min eb ea)) ->
  ma = mb /\ ea = eb.
Proof.
  intros Ha Hb Heq.
  pose proof (digits_shl mb (Z.le_min_l eb ea)) as Hdb.
  pose proof (digits_shl ma (Z.le_min_r eb ea)) as Hda.
  rewrite Heq in Hdb.
  assert (He : ea = eb) by lia. subst eb. split; [|reflexivity].
  rewrite Z.min_id in Heq. unfold shl_align in Heq.
  rewrite Z.sub_diag in Heq. simpl in Heq. congruence.
Qed.

Lemma sub_finite_nonzero (sa sb : bool) (ma mb : positive) (ea eb : Z) :
  valid_binary (S754_finite sa ma ea) = true ->
  valid_binary (S754_finite sb mb eb) = true ->
  SFltb (S754_finite sa ma ea) (S754_finite sb mb eb) = true ->
  nonzero (SF64sub (S754_finite sb mb eb) (S754_finite sa ma ea)).
Proof.
  intros Ha Hb Hlt. apply valid_finite in Ha, Hb.
  unfold SF64sub, SFsub. apply binary_normalize_nonzero; [|lia].
  intros Hzero.
  assert (Hs : sb = sa).
  { destruct sa, sb; unfold cond_Zopp in Hzero; try reflexivity; lia. }
  subst sb.
  assert (Hm : fst (shl_align mb eb (Z.min eb ea)) = fst (shl_align ma ea (Z.min eb ea))).
  { destruct sa; unfold cond_Zopp in Hzero; lia. }
  destruct (@aligned_eq _ _ _ _ Ha Hb Hm) as [-> ->].
  unfold SFltb, SFcompare in Hlt.
  change (Pos.compare_cont Eq mb mb) with (Pos.compare mb mb) in Hlt.
  rewrite Z.compare_refl, Pos.compare_refl in Hlt.
  destruct sa; discriminate.
Qed.

Local Close Scope Z_scope.

(** [a < b] makes [b - a] different from zero. *)
Lemma sub_lt_nonzero (a b : float) :
  (a <? b) = true -> (b - a =? 0) = false.
Proof.
  rewrite ltb_spec, eqb_spec, sub_spec.
  pose proof (Prim2SF_valid a) as Ha. pose proof (Prim2SF_valid b) as Hb.
  change (Prim2SF 0) with (S754_zero false).
  destruct (Prim2SF a) as [sa|sa| |sa ma ea];
    destruct (Prim2SF b) as [sb|sb| |sb mb eb];
    try exact (@sub_finite_nonzero _ _ _ _ _ _ Ha Hb);
    try destruct sa; try destruct sb; intros Hlt;
    try discriminate Hlt; reflexivity.
Qed.

End Binary64.

(** ** The quantizer *)

Section Quantizer.

Context {F : Type} {float_ops : PyFloat F}.

(** With a width and a height that are not zero, the quantizer returns
    the geometry with every coordinate replaced by its tile-local one. *)
Lemma quantizer_formula (geom bbox : Geometry F) (minx miny maxx maxy : F) :
  bounds bbox = Ok (minx, miny, maxx, maxy) ->
  feqb (fsub maxx minx) (fconst 0) = false ->
  feqb (fsub maxy miny) (fconst 0) = false ->
  geometry_to_tile_coords geom bbox =
  Ok (map_coords (tile_local TILE_EXTENT (minx, miny, maxx, maxy)) geom).
Proof.
  intros Hbounds Hwidth Hheight.
  unfold geometry_to_tile_coords, truediv. rewrite Hbounds. simpl.
  rewrite Hwidth, Hheight. simpl.
  apply transform_pure. intros [x y]. reflexivity.
Qed.

(** A zero width, or a zero height, stops the quantizer at the division. *)
Lemma quantizer_zero_division (geom bbox : Geometry F) (minx miny maxx maxy : F) :
  bounds bbox = Ok (minx, miny, maxx, maxy) ->
  feqb (fsub maxx minx) (fconst 0) = true \/
  feqb (fsub maxy miny) (fconst 0) = true ->
  geometry_to_tile_coords geom bbox = Err ZeroDivisionError.
Proof.
  intros Hbounds Hzero.
  unfold geometry_to_tile_coords, truediv. rewrite Hbounds. simpl.
  destruct (feqb (fsub maxx minx) (fconst 0)); simpl; [reflexivity|].
  destruct Hzero as [Hzero|Hzero]; [discriminate|].
  rewrite Hzero. reflexivity.
Qed.

End Quantizer.

Section QuantizerBinary64.

Local Open Scope float_scope.

(** C2 (amended).  In binary64, for every geometry and every box with
    [minX < maxX] and [minY < maxY], the quantizer returns the geometry
    with each coordinate [(x, y)] replaced by
    [((x - minX) * scaleX, (maxY - y) * scaleY)], where
    [scaleX = 4096 / (maxX - minX)] and [scaleY = 4096 / (maxY - minY)],
    every operation rounded as binary64 rounds it; the coordinates of
    the result are the images, in order, of those of the argument.  A
    point at [y = maxY] gets tile-local [Y == 0] when [maxY] and
    [scaleY] are finite.  A point at [y = minY] gets
    [(maxY - minY) * scaleY]. *)
Theorem C2_quantizer_maps_each_coordinate
    (geom bbox : Geometry float) (minx miny maxx maxy : float) :
  bounds bbox = Ok (minx, miny, maxx, maxy) ->
  (minx <? maxx) = true ->
  (miny <? maxy) = true ->
  let env := (minx, miny, maxx, maxy) in
  let scale_x := 4096 / (maxx - minx) in
  let scale_y := 4096 / (maxy - miny) in
  (forall x y,
      tile_local TILE_EXTENT env (x, y) =
      ((x - minx) * scale_x, (maxy - y) * scale_y)) /\
  geometry_to_tile_coords geom bbox =
    Ok (map_coords (tile_local TILE_EXTENT env) geom) /\
  coords_of (map_coords (tile_local TILE_EXTENT env) geom) =
    map (tile_local TILE_EXTENT env) (coords_of geom) /\
  (forall x, is_finite maxy = true -> is_finite scale_y = true ->
             (snd (tile_local TILE_EXTENT env (x, maxy)) =? 0) = true) /\
  (forall x, snd (tile_local TILE_EXTENT env (x, miny)) =
             (maxy - miny) * scale_y).
Proof.
  intros Hbounds Hx Hy env scale_x scale_y.
  split; [reflexivity|]. split; [|split; [|split]].
  - apply quantizer_formula; [exact Hbounds| |].
    + apply (@sub_lt_nonzero minx maxx Hx).
    + apply (@sub_lt_nonzero miny maxy Hy).
  - apply coords_of_map_coords.
  - intros x Hmaxy Hscale. apply (@sub_self_mul maxy scale_y Hmaxy Hscale).
  - intros x. reflexivity.
Qed.

(** C6 (amended).  In binary64, for every box with finite bounds that
    has [maxX == minX] or [maxY == minY], the quantizer raises
    [ZeroDivisionError], at the division by the width or the height,
    whatever the geometry. *)
Theorem C6_degenerate_box_raises_zero_division
    (geom bbox : Geometry float) (minx miny maxx maxy : float) :
  bounds bbox = Ok (minx, miny, maxx, maxy) ->
  finite_env (minx, miny, maxx, maxy) = true ->
  (maxx =? minx) = true \/ (maxy =? miny) = true ->
  geometry_to_tile_coords geom bbox = Err ZeroDivisionError.
Proof.
  intros Hbounds Hfinite Hdegenerate.
  unfold finite_env in Hfinite.
  apply andb_true_iff in Hfinite. destruct Hfinite as [Hfinite Hmaxy].
  apply andb_true_iff in Hfinite. destruct Hfinite as [Hfinite Hmaxx].
  apply andb_true_iff in Hfinite. destruct Hfinite as [Hminx Hminy].
  apply (@quantizer_zero_division _ _ geom bbox _ _ _ _ Hbounds).
  destruct Hdegenerate as [Heq|Heq]; [left|right].
  - apply (@sub_eq_zero maxx minx Hmaxx Hminx Heq).
  - apply (@sub_eq_zero maxy miny Hmaxy Hminy Heq).
Qed.

End QuantizerBinary64.

(** ** Rounding to the nearest integer, ties to even *)

Section NearestEven.

Local Open Scope R_scope.







Lemma bpow_IZR (n : Z) : (0 <= n)%Z -> bpow n = IZR (2 ^ n).
Proof.
  intros Hn. unfold bpow. destruct n as [|p|p]; [reflexivity| |lia].
  change (2 ^ Z.pos p)%Z with (Z.pow_pos 2 p).
  symmetry. apply Zpower_pos_powerRZ.
Qed.











End NearestEven.

(** ** What [binary_round_aux] computes *)

Section RoundingSpec.

Local Open Scope R_scope.

Lemma digits_bounds (p : positive) :
  bpow (Z.pos (digits2_pos p) - 1) <= IZR (Z.pos p) < bpow (Z.pos (digits2_pos p)).
Proof.
  rewrite !bpow_IZR by lia. split.
  - apply IZR_le. apply pos_ge_pow_digits.
  - apply IZR_lt. rewrite digits2_log2.
    apply (Z.log2_spec (Z.pos p)). lia.
Qed.





Lemma digits_nonneg_bounds (M : Z) :
  (0 < M)%Z -> bpow (Zdigits2 M - 1) <= IZR M < bpow (Zdigits2 M).
Proof.
  destruct M as [|p|p]; try lia. intros _. apply digits_bounds.
Qed.



End RoundingSpec.

(** ** Finite values as reals, and their order *)

Section RealValue.

Local Open Scope R_scope.











End RealValue.

(** ** Subtraction, multiplication and division round their exact result *)

Section OperationSpecs.

Local Open Scope R_scope.






End OperationSpecs.

(** ** Subtraction is monotone *)

Section MonotoneDifference.

Local Open Scope R_scope.

Lemma nonneg_finite (x : spec_float) : nonneg_sf x -> finite_sf x.
Proof. destruct x as [s|s| |[|] m e]; cbn; auto. Qed.





End MonotoneDifference.

(** ** The scale factor *)

Section ScaleFactor.

Local Open Scope R_scope.





End ScaleFactor.

(** ** One axis of the quantizer *)

Section QuantizerAxis.

Local Open Scope R_scope.




Local Open Scope float_scope.


End QuantizerAxis.

(** ** The quantizer stays in the tile *)

Section QuantizerRange.

Local Open Scope float_scope.


End QuantizerRange.

(** ** The exceptions of the tile box *)

Section TileBoxErrors.

Local Open Scope float_scope.



End TileBoxErrors.

(** ** Exact arithmetic *)

Section ExactArith.

Local Open Scope R_scope.

(** In exact arithmetic the top edge of the box goes to tile-local
    [Y = 0] and the bottom edge to [Y = 4096]. *)
Lemma edges_exact (minx miny maxx maxy x : R) :
  miny < maxy ->
  snd (tile_local TILE_EXTENT (minx, miny, maxx, maxy) (x, maxy)) = 0 /\
  snd (tile_local TILE_EXTENT (minx, miny, maxx, maxy) (x, miny)) =
    IZR TILE_EXTENT.
Proof.
  intros Hy. unfold tile_local, scale_factor, TILE_EXTENT. simpl.
  split; field; lra.
Qed.

End ExactArith.

(** ** Runs of the binary64 model *)

Section Runs.

Import Recorded.
Local Open Scope float_scope.

(** Tiles 0/0/0 and 1/0/0 under the recording. *)
Lemma world_tile_run :
  tile_to_bbox (math_ops := math) (proj := pyproj) 0 0 0 = Ok world_tile.
Proof. vm_compute. reflexivity. Qed.

Lemma north_west_tile_run :
  tile_to_bbox (math_ops := math) (proj := pyproj) 1 0 0 = Ok north_west_tile.
Proof. vm_compute. reflexivity. Qed.

(** C2, as stated, fails in binary64: in a box of height 49 (with
    [minY = 0 < maxY = 49]) a point at [y = minY] gets
    [49 * (4096 / 49) = 4095.9999999999995], not 4096. *)
Lemma C2_bottom_edge_misses_extent :
  bounds (box 0 0 49 49) = Ok (0, 0, 49, 49) /\
  (0 <? 49) = true /\
  geometry_to_tile_coords (Point [(0, 0)]) (box 0 0 49 49) =
    Ok (Point [(0, just_below_extent)]) /\
  (just_below_extent =? B64.of_Z TILE_EXTENT) = false.
Proof. repeat split; vm_compute; reflexivity. Qed.

(** The quantizer formula on a line in that box. *)
Lemma C2_quantizer_run :
  geometry_to_tile_coords (LineString [(12, 49); (49, 0)]) (box 0 0 49 49) =
  Ok (map_coords (tile_local TILE_EXTENT (0, 0, 49, 49))
        (LineString [(12, 49); (49, 0)])).
Proof.
  exact (proj1 (proj2
           (C2_quantizer_maps_each_coordinate
              (LineString [(12, 49); (49, 0)]) (box 0 0 49 49)
              (minx := 0) (miny := 0) (maxx := 49) (maxy := 49)
              eq_refl eq_refl eq_refl))).
Defined.



(** C6, as stated, fails: a box of zero width makes the quantizer raise
    [ZeroDivisionError]; no error of another class is raised in its
    place. *)
Lemma C6_flat_box_raises_zero_division :
  bounds (box 0 0 0 1) = Ok (0, 0, 0, 1) /\
  geometry_to_tile_coords (Point [(0, 0)]) (box 0 0 0 1) =
    Err ZeroDivisionError /\
  ZeroDivisionError <> UserDefined "ConfigurationError".
Proof. repeat split; try (vm_compute; reflexivity). discriminate. Qed.

(** The same box through the general statement. *)
Lemma C6_flat_box_run :
  geometry_to_tile_coords (LineString [(0, 0); (0, 1)]) (box 0 0 0 1) =
  Err ZeroDivisionError.
Proof.
  apply (C6_degenerate_box_raises_zero_division
           (LineString [(0, 0); (0, 1)]) (box 0 0 0 1)
           (minx := 0) (miny := 0) (maxx := 0) (maxy := 1)).
  - reflexivity.
  - reflexivity.
  - left. reflexivity.
Defined.

(** The bottom edge of a box the size of the EPSG:3857 world square. *)
Lemma world_square_bottom_edge_run :
  geometry_to_tile_coords (Point [(0, - x_max)])
    (box (- x_max) (- x_max) x_max x_max) =
  Ok (Point [(0x1.fffffffffffffp+10, just_below_extent)]).
Proof. vm_compute. reflexivity. Qed.

(** A flat box whose bounds are infinite goes through: [inf - inf] is
    NaN, which is not zero. *)
Lemma infinite_flat_box_run :
  geometry_to_tile_coords (Point [(0, 0)]) (box infinity 0 infinity 1) =
  Ok (Point [(nan, 4096)]).
Proof. vm_compute. reflexivity. Qed.



(** At zoom 60 the two longitudes of column 0 round to the same float,
    and so do the two latitudes of row 0: the box is flat. *)
Lemma zoom_60_box_is_flat :
  (bbox <- tile_to_bbox (math_ops := math) (proj := pyproj) 60 0 0 ;;
   bounds bbox) = Ok (- x_max, y_max, - x_max, y_max).
Proof. vm_compute. reflexivity. Qed.

(** C5, as stated, fails: with a record without geometry ahead of a
    record at the origin, tile 0/0/0 is not produced, the call raises the
    [AttributeError] of [shape(None)]; without that record the tile is
    produced. *)
Lemma C5_null_geometry_aborts :
  create_pbf_tile (ext := externals (shapefile [null_record; origin]))
    SHAPEFILE_PATH 0 0 0 = Err AttributeError /\
  exists tile,
    create_pbf_tile (ext := externals (shapefile [origin]))
      SHAPEFILE_PATH 0 0 0 = Ok (Some tile).
Proof.
  split; [vm_compute; reflexivity|]. eexists. vm_compute. reflexivity.
Qed.

(** The failing record in second place, through the general statement. *)
Lemma C5_abort_run :
  create_pbf_tile
    (ext := externals (shapefile [origin; null_record; north_west]))
    SHAPEFILE_PATH 0 0 0 = Err AttributeError.
Proof.
  apply (C5_failing_record_aborts_the_tile
           (ext := externals (shapefile [origin; null_record; north_west]))
           SHAPEFILE_PATH 0 0 0
           (tile_bbox := world_tile)
           (src := shapefile [origin; null_record; north_west])
           (before := [origin]) null_record [north_west]).
  - vm_compute. reflexivity.
  - reflexivity.
  - reflexivity.
  - constructor; [|constructor]. eexists. vm_compute. reflexivity.
  - reflexivity.
Defined.

(** C3, as stated, fails: a record without geometry ahead of a record
    at the origin leaves the loop with the [AttributeError] of
    [shape(None)]; the record at the origin intersects the box and has a
    clip, and there is no output for it to be in. *)
Lemma C3_failing_record_leaves_no_output :
  filter (survives (ext := sample) world_tile) [null_record; origin] =
    [origin] /\
  for_feat_in (ext := sample) world_tile [null_record; origin] [] =
    Err AttributeError.
Proof. split; vm_compute; reflexivity. Qed.

(** Three cities against tile 1/0/0. *)
Lemma C3_loop_run :
  exists out,
    for_feat_in north_west_tile
      [origin; north_west; south_east] [] = Ok out /\
    Forall2 (emitted_from north_west_tile)
      (filter (survives north_west_tile) [origin; north_west; south_east])
      out.
Proof.
  apply C3_output_is_the_surviving_subsequence.
  repeat constructor; eexists; vm_compute; reflexivity.
Defined.

(** The attributes of the same three cities. *)
Lemma C9_attributes_run :
  exists out,
    for_feat_in north_west_tile [origin; north_west; south_east] [] = Ok out /\
    map (@tile_properties float Json) out =
    map (@properties float Raw)
      (filter (survives north_west_tile) [origin; north_west; south_east]).
Proof.
  apply C9_attributes_pass_through.
  repeat constructor; eexists; vm_compute; reflexivity.
Defined.

(** A south-eastern city alone leaves tile 1/0/0 empty. *)
Lemma C7_empty_tile_run :
  create_pbf_tile (ext := externals (shapefile [south_east]))
    SHAPEFILE_PATH 1 0 0 = Ok None.
Proof.
  destruct (C7_empty_tile_returns_none
              (ext := externals (shapefile [south_east]))
              SHAPEFILE_PATH 1 0 0
              (tile_bbox := north_west_tile)
              (src := shapefile [south_east])) as [Hgeneral _].
  - vm_compute. reflexivity.
  - reflexivity.
  - apply Hgeneral.
    + repeat constructor. eexists. vm_compute. reflexivity.
    + intros feat [<-|[]]. vm_compute. reflexivity.
Defined.

(** Tile 1/0/0 of two cities: one layer, named after the collection. *)
Lemma C10_layer_run :
  exists layers,
    tile_layers (ext := externals (shapefile [origin; south_east]))
      SHAPEFILE_PATH 1 0 0 = Ok layers /\
    map (@layer_name float Json) layers = ["test_shp"%string].
Proof.
  eexists. split; [vm_compute; reflexivity|].
  destruct (C10_one_layer_named_after_the_source
              (ext := externals (shapefile [origin; south_east]))
              SHAPEFILE_PATH 1 0 0
              (layers := [ {| layer_name := "test_shp";
                              layer_features :=
                                [ {| tile_geometry :=
                                       Point [(just_below_extent, 4096)];
                                     tile_properties := properties origin |} ]
                           |} ])) as [[Hnil _]|_].
  - vm_compute. reflexivity.
  - discriminate Hnil.
  - reflexivity.
Defined.

End Runs.

(** * Further properties *)

(** ** The tile box: shape and neighbours *)

Section TileBoxShape.

Context {F : Type} {float_ops : PyFloat F} {math_ops : PyMath F} {proj : Pyproj F}.

(** What a returned box is made of: the four reprojected corners of the
    geographic rectangle, the lower right one first, and once more at the
    end unless the lower left one closes the ring. *)
Lemma tile_to_bbox_corners (z x y : Z) (bbox : Geometry F) :
  tile_to_bbox z x y = Ok bbox ->
  exists n l r t b rb rt lt lb,
    pow2 z = Ok n /\
    slippy_lon n x = Ok l /\ slippy_lon n (x + 1) = Ok r /\
    slippy_lat n y = Ok t /\ slippy_lat n (y + 1) = Ok b /\
    transformer_to_3857 (r, b) = Ok rb /\
    transformer_to_3857 (r, t) = Ok rt /\
    transformer_to_3857 (l, t) = Ok lt /\
    transformer_to_3857 (l, b) = Ok lb /\
    bbox = Polygon (if feqb r l && feqb b b then [rb; rt; lt; lb]
                    else [rb; rt; lt; lb; rb]) [].
Proof.
  unfold tile_to_bbox, slippy_lon, slippy_lat.
  destruct (pow2 z) as [n|e] eqn:?; cbn [bind]; [|discriminate].
  destruct (float_of_int x) as [xf|e] eqn:?; cbn [bind]; [|discriminate].
  destruct (truediv xf n) as [q|e] eqn:?; cbn [bind]; [|discriminate].
  destruct (float_of_int (x + 1)) as [xf'|e] eqn:?; cbn [bind]; [|discriminate].
  destruct (truediv xf' n) as [q'|e] eqn:?; cbn [bind]; [|discriminate].
  destruct (float_of_int (2 * y)) as [yf|e] eqn:?; cbn [bind]; [|discriminate].
  destruct (truediv yf n) as [r|e] eqn:?; cbn [bind]; [|discriminate].
  destruct (math_sinh (fmul math_pi (fsub (fconst 1) r))) as [s|e] eqn:?;
    cbn [bind]; [|discriminate].
  destruct (math_atan s) as [a|e] eqn:?; cbn [bind]; [|discriminate].
  destruct (float_of_int (2 * (y + 1))) as [yf'|e] eqn:?; cbn [bind];
    [|discriminate].
  destruct (truediv yf' n) as [r'|e] eqn:?; cbn [bind]; [|discriminate].
  destruct (math_sinh (fmul math_pi (fsub (fconst 1) r'))) as [s'|e] eqn:?;
    cbn [bind]; [|discriminate].
  destruct (math_atan s') as [a'|e] eqn:?; cbn [bind]; [|discriminate].
  set (l := fsub (fmul q (fconst 360)) (fconst 180)).
  set (rt := fsub (fmul q' (fconst 360)) (fconst 180)).
  unfold box, closed_ring. cbn [last fst snd].
  destruct (feqb rt l && feqb (math_degrees a') (math_degrees a')) eqn:Hclosed;
    cbn [app transform mapM bind];
    (destruct (transformer_to_3857 (rt, math_degrees a')) as [c0|e] eqn:H0;
       cbn [bind]; [|discriminate]);
    (destruct (transformer_to_3857 (rt, math_degrees a)) as [c1|e] eqn:H1;
       cbn [bind]; [|discriminate]);
    (destruct (transformer_to_3857 (l, math_degrees a)) as [c2|e] eqn:H2;
       cbn [bind]; [|discriminate]);
    (destruct (transformer_to_3857 (l, math_degrees a')) as [c3|e] eqn:H3;
       cbn [bind]; [|discriminate]);
    intros Hbox; injection Hbox as <-;
    exists n, l, rt, (math_degrees a), (math_degrees a'), c0, c1, c2, c3;
    rewrite Hclosed;
    repeat split; cbn [bind];
    repeat match goal with
    | H : ?c = Ok _ |- context [?c] => rewrite H; cbn [bind]
    end; reflexivity.
Qed.


(** X2.  Two tiles side by side share an edge, vertex for vertex: the
    right edge of tile [x], the first two vertices of its ring, is the
    left edge of tile [x + 1], the third and fourth vertices of its
    ring, as the same two coordinates, in any float arithmetic.  Each
    ring ends there or with its first vertex once more. *)
Theorem tiles_side_by_side_share_an_edge (z x y : Z) (west east : Geometry F) :
  tile_to_bbox z x y = Ok west ->
  tile_to_bbox z (x + 1) y = Ok east ->
  exists rb rt wlt wlb erb ert wend eend,
    west = Polygon (rb :: rt :: wlt :: wlb :: wend) [] /\
    east = Polygon (erb :: ert :: rt :: rb :: eend) [] /\
    (wend = [] \/ wend = [rb]) /\ (eend = [] \/ eend = [erb]).
Proof.
  intros Hwest Heast.
  destruct (tile_to_bbox_corners _ _ _ Hwest)
    as [n [l [r [t [b [rb [rt [lt [lb Hw]]]]]]]]].
  destruct (tile_to_bbox_corners _ _ _ Heast)
    as [n' [l' [r' [t' [b' [rb' [rt' [lt' [lb' He]]]]]]]]].
  destruct Hw as [Hn [_ [Hr [Ht [Hb [Hrb [Hrt [_ [_ ->]]]]]]]]].
  destruct He as [Hn' [Hl' [_ [Ht' [Hb' [_ [_ [Hlt' [Hlb' ->]]]]]]]]].
  rewrite Hn in Hn'. injection Hn' as <-.
  rewrite Hr in Hl'. injection Hl' as <-.
  rewrite Ht in Ht'. injection Ht' as <-.
  rewrite Hb in Hb'. injection Hb' as <-.
  rewrite Hrt in Hlt'. injection Hlt' as <-.
  rewrite Hrb in Hlb'. injection Hlb' as <-.
  exists rb, rt, lt, lb, rb', rt'.
  destruct (feqb r l && feqb b b); destruct (feqb r' r && feqb b b);
    do 2 eexists; repeat split; auto.
Qed.

(** X3.  Two tiles one above the other share an edge, vertex for vertex:
    the bottom edge of tile [y], the first and fourth vertices of its
    ring, is the top edge of tile [y + 1], the second and third vertices
    of its ring.  Each ring ends there or with its first vertex once
    more. *)
Theorem tiles_one_above_the_other_share_an_edge
    (z x y : Z) (north south : Geometry F) :
  tile_to_bbox z x y = Ok north ->
  tile_to_bbox z x (y + 1) = Ok south ->
  exists rb nrt nlt lb srb slb nend send,
    north = Polygon (rb :: nrt :: nlt :: lb :: nend) [] /\
    south = Polygon (srb :: rb :: lb :: slb :: send) [] /\
    (nend = [] \/ nend = [rb]) /\ (send = [] \/ send = [srb]).
Proof.
  intros Hnorth Hsouth.
  destruct (tile_to_bbox_corners _ _ _ Hnorth)
    as [n [l [r [t [b [rb [rt [lt [lb Hn]]]]]]]]].
  destruct (tile_to_bbox_corners _ _ _ Hsouth)
    as [n' [l' [r' [t' [b' [rb' [rt' [lt' [lb' Hs]]]]]]]]].
  destruct Hn as [Hn [Hl [Hr [_ [Hb [Hrb [_ [_ [Hlb ->]]]]]]]]].
  destruct Hs as [Hn' [Hl' [Hr' [Ht' [_ [_ [Hrt' [Hlt' [_ ->]]]]]]]]].
  rewrite Hn in Hn'. injection Hn' as <-.
  rewrite Hl in Hl'. injection Hl' as <-.
  rewrite Hr in Hr'. injection Hr' as <-.
  rewrite Hb in Ht'. injection Ht' as <-.
  rewrite Hrb in Hrt'. injection Hrt' as <-.
  rewrite Hlb in Hlt'. injection Hlt' as <-.
  exists rb, rt, lt, lb, rb', lb'.
  destruct (feqb r l && feqb b b); destruct (feqb r l && feqb b' b');
    do 2 eexists; repeat split; auto.
Qed.

End TileBoxShape.

(** ** The quantizer: failures and shape *)

Section QuantizerShape.

Context {F : Type} {float_ops : PyFloat F}.

(** The three ways through the quantizer, read off the box alone. *)
Lemma quantizer_cases (geom bbox : Geometry F) :
  (bounds bbox = Err ValueError /\
   geometry_to_tile_coords geom bbox = Err ValueError)
  \/
  (exists env, bounds bbox = Ok env /\
     geometry_to_tile_coords geom bbox = Err ZeroDivisionError)
  \/
  (exists env, bounds bbox = Ok env /\
     geometry_to_tile_coords geom bbox =
       Ok (map_coords (tile_local TILE_EXTENT env) geom)).
Proof.
  unfold geometry_to_tile_coords.
  destruct (bounds bbox) as [[[[minx miny] maxx] maxy]|e] eqn:Hbounds.
  - right. cbn [bind]. unfold truediv.
    destruct (feqb (fsub maxx minx) (fconst 0)) eqn:Hwidth; cbn [bind].
    { left. eexists. split; reflexivity. }
    destruct (feqb (fsub maxy miny) (fconst 0)) eqn:Hheight; cbn [bind].
    { left. eexists. split; reflexivity. }
    right. eexists. split; [reflexivity|].
    apply transform_pure. intros [x y]. reflexivity.
  - left. unfold bounds in Hbounds.
    destruct (coords_of bbox) as [|[x y] cs]; [|discriminate].
    injection Hbounds as <-. split; reflexivity.
Qed.

Lemma geom_type_map_coords (f : coord F -> coord F) (geom : Geometry F) :
  geom_type (map_coords f geom) = geom_type geom.
Proof. destruct geom as [cs|cs|cs|ext ints|[| | |] gs]; reflexivity. Qed.

Lemma is_empty_map_coords (f : coord F -> coord F) (geom : Geometry F) :
  is_empty (map_coords f geom) = is_empty geom.
Proof.
  induction geom as [cs|cs|cs|ext ints|k gs IH] using Geometry_rect'; simpl;
    try (destruct cs; reflexivity).
  - destruct ext; reflexivity.
  - induction gs as [|g gs IHgs]; simpl; [reflexivity|].
    destruct IH as [Hg Hrest]. rewrite Hg, (IHgs Hrest). reflexivity.
Qed.

(** What the quantizer returns, when it returns. *)
Lemma quantizer_returns (geom bbox q : Geometry F) :
  geometry_to_tile_coords geom bbox = Ok q ->
  exists env, bounds bbox = Ok env /\
              q = map_coords (tile_local TILE_EXTENT env) geom.
Proof.
  intros Hq.
  destruct (quantizer_cases geom bbox)
    as [[_ Hq']|[[env [_ Hq']]|[env [Hbounds Hq']]]];
    rewrite Hq' in Hq; try discriminate; injection Hq as <-.
  exists env. split; [exact Hbounds|reflexivity].
Qed.

(** An exception of the quantizer does not depend on the geometry. *)
Lemma quantizer_fails_alike (geom other bbox : Geometry F) (e : exn) :
  geometry_to_tile_coords geom bbox = Err e ->
  geometry_to_tile_coords other bbox = Err e.
Proof.
  unfold geometry_to_tile_coords.
  destruct (bounds bbox) as [[[[minx miny] maxx] maxy]|e']; cbn [bind];
    [|intros H; exact H].
  unfold truediv.
  destruct (feqb (fsub maxx minx) (fconst 0)); cbn [bind];
    [intros H; exact H|].
  destruct (feqb (fsub maxy miny) (fconst 0)); cbn [bind];
    [intros H; exact H|].
  rewrite (transform_pure _ (tile_local TILE_EXTENT (minx, miny, maxx, maxy)));
    [discriminate|].
  intros [x y]. reflexivity.
Qed.

(** X5.  What the quantizer returns has the kind of its argument, is
    empty exactly when its argument is, and holds as many coordinates:
    only the numbers change. *)
Theorem quantizer_keeps_the_shape (geom bbox q : Geometry F) :
  geometry_to_tile_coords geom bbox = Ok q ->
  geom_type q = geom_type geom /\
  is_empty q = is_empty geom /\
  length (coords_of q) = length (coords_of geom).
Proof.
  intros Hq. destruct (quantizer_returns _ _ Hq) as [env [_ ->]].
  split; [apply geom_type_map_coords|].
  split; [apply is_empty_map_coords|].
  rewrite coords_of_map_coords. apply length_map.
Qed.

End QuantizerShape.

(** ** The loop, the tile and the route, composed *)

Section Composition.

Context {F Raw Json Pbf : Type}.
Context {float_ops : PyFloat F} {math_ops : PyMath F} {proj : Pyproj F} {ext : Externals F Raw Json Pbf}.

Implicit Types (tile_bbox : Geometry F) (feat : Feature F Raw).
Implicit Types (src : list (Feature F Raw)) (d : TileFeature F Json).


(** X7.  The loop over two batches of records one after the other: the
    output is the output of the first batch followed by that of the
    second, and an exception in the first batch leaves the second
    unread. *)
Theorem loop_over_two_batches tile_bbox (first_batch second_batch : list (Feature F Raw)) :
  for_feat_in tile_bbox (first_batch ++ second_batch) [] =
  (out1 <- for_feat_in tile_bbox first_batch [] ;;
   out2 <- for_feat_in tile_bbox second_batch [] ;;
   Ok (out1 ++ out2)).
Proof.
  induction first_batch as [|feat rest IH]; cbn [app for_feat_in bind].
  - destruct (for_feat_in tile_bbox second_batch []); reflexivity.
  - destruct (for_feat_body tile_bbox feat) as [[d|]|e]; cbn [bind app].
    + rewrite (for_feat_in_acc tile_bbox (rest ++ second_batch) [d]).
      rewrite (for_feat_in_acc tile_bbox rest [d]).
      rewrite IH.
      destruct (for_feat_in tile_bbox rest []) as [out1|e]; cbn [bind];
        [|reflexivity].
      destruct (for_feat_in tile_bbox second_batch []) as [out2|e];
        cbn [bind]; reflexivity.
    + exact IH.
    + reflexivity.
Qed.

(** X8.  With the box computed and the collection opened,
    [create_pbf_tile] returns [None] exactly when every record goes
    through the loop without an exception and none survives; and for the
    configured shapefile, when no collaborator raises the 204 itself, the
    tile route raises 204 No Content in exactly that case. *)
Theorem none_exactly_when_nothing_survives
    path z x y tile_bbox (src : Collection F Raw) :
  tile_to_bbox z x y = Ok tile_bbox ->
  fiona_open path = Ok src ->
  let nothing_survives :=
    Forall (processed tile_bbox) (records src) /\
    forall feat, In feat (records src) -> survives tile_bbox feat = false in
  (create_pbf_tile path z x y = Ok None <-> nothing_survives) /\
  (path = SHAPEFILE_PATH ->
   create_pbf_tile path z x y <> Err (HTTPException 204 "No Content") ->
   (serve_pbf_tile z x y = Err (HTTPException 204 "No Content")
    <-> nothing_survives)).
Proof.
  intros Hbox Hopen nothing_survives.
  assert (Hnone : create_pbf_tile path z x y = Ok None <-> nothing_survives).
  { unfold create_pbf_tile.
    rewrite (tile_layers_opened path z x y Hbox Hopen).
    split.
    - destruct (for_feat_in tile_bbox (records src) []) as [out|e] eqn:Hout;
        cbn [bind]; [|discriminate].
      pose proof (for_feat_in_processed _ _ _ Hout) as Hproc.
      destruct out as [|d out]; cbn [bind].
      + intros _. split; [exact Hproc|].
        destruct (for_feat_in_filter Hproc) as [out' [Hout' Hpairs]].
        rewrite Hout in Hout'. injection Hout' as <-.
        inversion Hpairs as [Hnil|]. intros feat Hin.
        destruct (survives tile_bbox feat) eqn:Hs; [|reflexivity].
        assert (Hmem : In feat (filter (survives tile_bbox) (records src))).
        { apply filter_In. split; assumption. }
        rewrite <- Hnil in Hmem. destruct Hmem.
      + destruct (encode _); cbn [bind]; discriminate.
    - intros [Hproc Hsurv].
      destruct (for_feat_in_filter Hproc) as [out [Hout Hpairs]].
      rewrite Hout. cbn [bind].
      rewrite (filter_none _ _ Hsurv) in Hpairs.
      inversion Hpairs. reflexivity. }
  split; [exact Hnone|].
  intros -> Hother. rewrite <- Hnone. unfold serve_pbf_tile.
  destruct (create_pbf_tile SHAPEFILE_PATH z x y) as [[tile|]|e];
    cbn [bind]; split; intros H; try discriminate; try reflexivity.
  injection H as ->. contradiction Hother. reflexivity.
Qed.

(** X9.  A response of the tile route carries the encoding of exactly
    one layer, read from the configured shapefile, named after it and
    holding at least one feature, with the media type of vector tiles
    and a file name made of the three tile numbers. *)
Theorem response_carries_one_layer (z x y : Z) (resp : StreamingResponse (Pbf := Pbf)) :
  serve_pbf_tile z x y = Ok resp ->
  exists tile_bbox (src : Collection F Raw) d features,
    tile_to_bbox z x y = Ok tile_bbox /\
    fiona_open SHAPEFILE_PATH = Ok src /\
    for_feat_in tile_bbox (records src) [] = Ok (d :: features) /\
    encode [ {| layer_name := or_default (name src) "layer";
                layer_features := d :: features |} ] = Ok (content resp) /\
    media_type resp = "application/vnd.mapbox-vector-tile"%string /\
    content_disposition resp =
      ("inline; filename=tile_" ++ str z ++ "_" ++ str x ++ "_" ++ str y
         ++ ".pbf")%string.
Proof.
  unfold serve_pbf_tile, create_pbf_tile, tile_layers.
  destruct (tile_to_bbox z x y) as [tile_bbox|e] eqn:Hbox; cbn [bind];
    [|discriminate].
  destruct (fiona_open SHAPEFILE_PATH) as [src|e] eqn:Hopen; cbn [bind];
    [|discriminate].
  destruct (for_feat_in tile_bbox (records src) [])
    as [[|d features]|e] eqn:Hloop; cbn [bind app]; try discriminate.
  destruct (encode _) as [tile|e] eqn:Hencode; cbn [bind]; [|discriminate].
  intros Hresp. injection Hresp as <-.
  exists tile_bbox, src, d, features. cbn [content media_type content_disposition].
  repeat split; assumption.
Qed.

(** X10.  A box on which the quantizer fails never gives a tile: every
    surviving record raises the quantizer's exception in the loop body,
    so [create_pbf_tile] raises or, when no record survives, returns
    [None]. *)
Theorem failing_box_gives_no_tile
    path z x y tile_bbox (geom : Geometry F) (e : exn) :
  tile_to_bbox z x y = Ok tile_bbox ->
  geometry_to_tile_coords geom tile_bbox = Err e ->
  (forall feat, survives tile_bbox feat = true ->
                for_feat_body tile_bbox feat = Err e) /\
  (forall src out, for_feat_in tile_bbox src [] = Ok out -> out = []) /\
  (forall tile, create_pbf_tile path z x y <> Ok (Some tile)).
Proof.
  intros Hbox Hfail.
  assert (Hbody : forall feat, survives tile_bbox feat = true ->
                               for_feat_body tile_bbox feat = Err e).
  { intros feat. unfold survives, for_feat_body, reprojected.
    destruct (shape (geometry feat)) as [g0|e0]; cbn [bind];
      [|discriminate].
    destruct (transform transformer_to_3857 g0) as [g|e0]; cbn [bind];
      [|discriminate].
    destruct (intersects g tile_bbox) as [[|]|e0]; cbn [bind negb];
      try discriminate.
    destruct (intersection g tile_bbox) as [clipped|e0]; cbn [bind];
      [|discriminate].
    destruct (is_empty clipped); cbn [negb]; [discriminate|]. intros _.
    rewrite (quantizer_fails_alike geom clipped tile_bbox Hfail).
    reflexivity. }
  assert (Hloop : forall src out,
             for_feat_in tile_bbox src [] = Ok out -> out = []).
  { induction src as [|feat rest IH]; cbn [for_feat_in]; intros out.
    - intros Hout. injection Hout as <-. reflexivity.
    - destruct (for_feat_body tile_bbox feat) as [[d|]|e0] eqn:Hfeat;
        cbn [bind]; try discriminate; [|apply IH].
      destruct (body_appends _ _ Hfeat) as [Hs _].
      rewrite (Hbody feat Hs) in Hfeat. discriminate. }
  split; [exact Hbody|]. split; [exact Hloop|].
  intros tile. unfold create_pbf_tile, tile_layers.
  rewrite Hbox. cbn [bind].
  destruct (fiona_open path) as [src|e0]; cbn [bind]; [|discriminate].
  destruct (for_feat_in tile_bbox (records src) []) as [out|e0] eqn:Hout;
    cbn [bind]; [|discriminate].
  rewrite (Hloop _ _ Hout). cbn [bind]. discriminate.
Qed.

End Composition.

(** ** Binary64: the zoom levels at which [tile_to_bbox] fails *)

Section ZoomRange.

Local Open Scope float_scope.

(** [2.0 ** z] is not zero from the least subnormal on. *)
Lemma pow_two_nonzero (z : Z) (n : float) :
  (-1074 <= z)%Z -> B64.pow_two z = Ok n -> (n =? 0) = false.
Proof.
  intros Hz. unfold B64.pow_two.
  destruct (B64.int_to_float z) as [zf|e]; cbn [bind]; [|discriminate].
  destruct (1024 <=? z)%Z eqn:Hhi; [discriminate|].
  intros Hn. injection Hn as <-.
  apply Z.leb_gt in Hhi.
  apply negb_true_iff.
  apply (@checked_on_range (fun z => negb (Z.ldexp 1 z =? 0)) (-1074) 2098%nat);
    [vm_compute; reflexivity|lia].
Qed.

(** [2.0 ** z] is [0.0] below the least subnormal, for a [z] that
    converts to a float. *)
Lemma pow_two_underflows (z : Z) :
  (z <= -1075)%Z -> is_infinity (B64.of_Z z) = false ->
  B64.pow_two z = Ok 0.
Proof.
  intros Hz Hzf. unfold B64.pow_two, B64.int_to_float.
  rewrite Hzf. cbn [bind].
  destruct (1024 <=? z)%Z eqn:Hhi; [apply Z.leb_le in Hhi; lia|].
  f_equal.
  destruct (Z_le_gt_dec z (-2099)) as [Hlow|Hmid].
  - unfold Z.ldexp.
    match goal with
    | |- context [Z.max (Z.min z ?hi) ?lo] =>
        let hi' := eval vm_compute in hi in
        let lo' := eval vm_compute in lo in
        change hi with hi'; change lo with lo'
    end.
    rewrite Z.min_l by lia. rewrite Z.max_r by lia. reflexivity.
  - apply Leibniz.eqb_spec.
    apply (@checked_on_range (fun z => Leibniz.eqb (Z.ldexp 1 z) 0)
             (-2099) 1025%nat); [vm_compute; reflexivity|lia].
Qed.

(** The checks of [math_1] raise [ValueError] or [OverflowError]. *)
Lemma math_1_exceptions (func : float -> float) (can_overflow : bool)
    (x : float) (e : exn) :
  B64.math_1 func can_overflow x = Err e -> e = ValueError \/ e = OverflowError.
Proof.
  unfold B64.math_1.
  destruct (is_nan (func x) && negb (is_nan x)).
  - intros H. injection H as <-. left. reflexivity.
  - destruct (is_infinity (func x) && is_finite x); [|discriminate].
    destruct can_overflow; intros H; injection H as <-;
      [right|left]; reflexivity.
Qed.

(** X11.  In binary64, [2.0 ** z] raises [OverflowError] for every zoom
    from 1024 on, before anything else is evaluated: [tile_to_bbox],
    [create_pbf_tile] and the tile route raise it for every column and
    row, whatever the C library, the transformer and the shapefile
    are; the shapefile is not opened. *)
Theorem zoom_from_1024_overflows
    (Raw Json Pbf : Type) (M : PyMath float) (P : Pyproj float)
    (E : Externals float Raw Json Pbf) (path : string) (z x y : Z) :
  (1024 <= z)%Z ->
  tile_to_bbox (math_ops := M) (proj := P) z x y = Err OverflowError /\
  create_pbf_tile (math_ops := M) (proj := P) (ext := E) path z x y =
    Err OverflowError /\
  serve_pbf_tile (math_ops := M) (proj := P) (ext := E) z x y =
    Err OverflowError.
Proof.
  intros Hz.
  assert (Hbox : tile_to_bbox (math_ops := M) (proj := P) z x y =
                 Err OverflowError).
  { unfold tile_to_bbox. cbn [pow2 B64.arith].
    unfold B64.pow_two, B64.int_to_float.
    apply Z.leb_le in Hz. rewrite Hz.
    destruct (is_infinity (B64.of_Z z)); reflexivity. }
  assert (Hcreate : forall p,
             create_pbf_tile (math_ops := M) (proj := P) (ext := E) p z x y =
             Err OverflowError).
  { intros p. unfold create_pbf_tile, tile_layers. rewrite Hbox. reflexivity. }
  split; [exact Hbox|]. split; [apply Hcreate|].
  unfold serve_pbf_tile. rewrite Hcreate. reflexivity.
Qed.

(** X12.  In binary64, with a transformer that does not itself raise
    [ZeroDivisionError] and a column that converts to a float,
    [tile_to_bbox] raises [ZeroDivisionError] exactly for the zooms below
    -1074 that convert to a float: there [2.0 ** z] is [0.0] and [x / n]
    divides by it.  A zoom too far below for the conversion raises
    [OverflowError] at the power. *)
Theorem zero_division_exactly_below_the_subnormals
    (m : B64.Libm) (P : Pyproj float) (z x y : Z) :
  (forall c, @transformer_to_3857 float P c <> Err ZeroDivisionError) ->
  is_infinity (B64.of_Z x) = false ->
  tile_to_bbox (math_ops := B64.math m) (proj := P) z x y =
    Err ZeroDivisionError
  <-> ((z <= -1075)%Z /\ is_infinity (B64.of_Z z) = false).
Proof.
  intros Hproj Hx. split.
  - intros Hraise.
    assert (Hzf : is_infinity (B64.of_Z z) = false).
    { revert Hraise. unfold tile_to_bbox. cbn [pow2 B64.arith].
      unfold B64.pow_two, B64.int_to_float.
      destruct (is_infinity (B64.of_Z z)); [discriminate|reflexivity]. }
    split; [|exact Hzf].
    destruct (Z_le_gt_dec z (-1075)) as [Hlow|Hhigh]; [exact Hlow|].
    exfalso. revert Hraise. unfold tile_to_bbox.
    cbn [pow2 float_of_int B64.arith].
    destruct (B64.pow_two z) as [n|e] eqn:Hn; cbn [bind].
    2:{ unfold B64.pow_two, B64.int_to_float in Hn. rewrite Hzf in Hn.
        cbn [bind] in Hn.
        destruct (1024 <=? z)%Z; [injection Hn as <-|]; discriminate. }
    assert (Hnz : (n =? B64.of_Z 0) = false).
    { apply (pow_two_nonzero (z := z)); [lia|exact Hn]. }
    unfold B64.int_to_float, truediv. cbn [feqb B64.arith fconst].
    rewrite Hx, Hnz. cbn [bind].
    destruct (is_infinity (B64.of_Z (x + 1))); cbn [bind]; [discriminate|].
    destruct (is_infinity (B64.of_Z (2 * y))); cbn [bind]; [discriminate|].
    cbn [math_sinh math_atan B64.math].
    match goal with
    | |- context [B64.math_1 ?f true ?a] =>
        destruct (B64.math_1 f true a) as [s|e] eqn:Hs; cbn [bind]
    end.
    2:{ destruct (math_1_exceptions _ _ _ Hs) as [-> | ->]; discriminate. }
    match goal with
    | |- context [B64.math_1 ?f false ?a] =>
        destruct (B64.math_1 f false a) as [t|e] eqn:Ht; cbn [bind]
    end.
    2:{ destruct (math_1_exceptions _ _ _ Ht) as [-> | ->]; discriminate. }
    destruct (is_infinity (B64.of_Z (2 * (y + 1)))); cbn [bind];
      [discriminate|].
    match goal with
    | |- context [B64.math_1 ?f true ?a] =>
        destruct (B64.math_1 f true a) as [s'|e] eqn:Hs'; cbn [bind]
    end.
    2:{ destruct (math_1_exceptions _ _ _ Hs') as [-> | ->]; discriminate. }
    match goal with
    | |- context [B64.math_1 ?f false ?a] =>
        destruct (B64.math_1 f false a) as [t'|e] eqn:Ht'; cbn [bind]
    end.
    2:{ destruct (math_1_exceptions _ _ _ Ht') as [-> | ->]; discriminate. }
    unfold box, closed_ring. cbn [last fst snd].
    match goal with
    | |- context [if ?c then _ else _] => destruct c
    end; cbn [app transform mapM bind];
    repeat match goal with
    | |- context [transformer_to_3857 ?c] =>
        let H := fresh "Hc" in
        destruct (transformer_to_3857 c) as [?|?] eqn:H; cbn [bind];
        [|intros Hraise; injection Hraise as ->; exact (Hproj _ H)]
    end;
    discriminate.
  - intros [Hz Hzf]. unfold tile_to_bbox.
    cbn [pow2 float_of_int B64.arith].
    rewrite (pow_two_underflows Hz Hzf). cbn [bind].
    unfold B64.int_to_float. rewrite Hx. cbn [bind].
    unfold truediv. cbn [feqb B64.arith fconst].
    reflexivity.
Qed.

(** A finite float minus itself is zero. *)
Lemma sub_self_zero (x : float) :
  is_finite x = true -> (x - x =? B64.of_Z 0) = true.
Proof.
  intros Hx. rewrite eqb_spec, sub_spec.
  rewrite (sub_self_SF (finite_cases x Hx)). reflexivity.
Qed.

(** X13.  In binary64, from zoom 55 on, the two longitudes of column 0
    round to the same float, -180: the box of every tile of that column
    has its left edge on its right edge, whatever the C library and the
    transformer are, and its ring is the four corners [c0; c1; c1; c0]
    (closed by [c0] once more only if the lower latitude is a NaN).  With
    a transformer whose X depends on the longitude alone, as the Mercator
    projection's does, the box has a zero width, and with finite bounds
    the quantizer raises [ZeroDivisionError] on it for every geometry. *)
Theorem column_0_box_collapses_from_zoom_55
    (m : B64.Libm) (P : Pyproj float) (z y : Z) (bbox : Geometry float) :
  (55 <= z)%Z ->
  tile_to_bbox (math_ops := B64.math m) (proj := P) z 0 y = Ok bbox ->
  (exists c0 c1, bbox = Polygon [c0; c1; c1; c0] [] \/
                 bbox = Polygon [c0; c1; c1; c0; c0] []) /\
  ((forall lon lat lat' c c',
       @transformer_to_3857 float P (lon, lat) = Ok c ->
       @transformer_to_3857 float P (lon, lat') = Ok c' ->
       fst c = fst c') ->
   forall minx miny maxx maxy,
     bounds bbox = Ok (minx, miny, maxx, maxy) ->
     is_finite minx = true ->
     forall geom, geometry_to_tile_coords geom bbox = Err ZeroDivisionError).
Proof.
  intros Hz Hbox.
  destruct (tile_to_bbox_corners (math_ops := B64.math m) (proj := P)
              z 0 y Hbox)
    as [n [l [r [t [b [rb [rt [lt [lb Hparts]]]]]]]]].
  destruct Hparts as [Hn [Hl [Hr [_ [_ [Hrb [Hrt [Hlt [Hlb ->]]]]]]]]].
  assert (Hlr : l = r).
  { cbn [pow2 B64.arith] in Hn. unfold B64.pow_two in Hn.
    destruct (B64.int_to_float z) as [zf|e]; cbn [bind] in Hn;
      [|discriminate].
    destruct (1024 <=? z)%Z eqn:Hhi; [discriminate|].
    injection Hn as <-. apply Z.leb_gt in Hhi.
    unfold slippy_lon, truediv in Hl, Hr.
    cbn [float_of_int feqb fconst fmul fsub fdiv B64.arith] in Hl, Hr.
    change (B64.int_to_float 0) with (Ok (A := float) 0) in Hl.
    change (B64.int_to_float (0 + 1)) with (Ok (A := float) 1) in Hr.
    cbn [bind] in Hl, Hr.
    destruct (Z.ldexp 1 z =? B64.of_Z 0); [discriminate|].
    cbn [bind] in Hl, Hr. injection Hl as <-. injection Hr as <-.
    apply Leibniz.eqb_spec.
    apply (@checked_on_range
             (fun z => Leibniz.eqb
                         (0 / Z.ldexp 1 z * B64.of_Z 360 - B64.of_Z 180)
                         (1 / Z.ldexp 1 z * B64.of_Z 360 - B64.of_Z 180))
             55 969%nat); [vm_compute; reflexivity|lia]. }
  subst r.
  rewrite Hlb in Hrb. injection Hrb as <-.
  rewrite Hlt in Hrt. injection Hrt as <-.
  split.
  { exists lb, lt. destruct (feqb l l && feqb b b); auto. }
  intros Hlon minx miny maxx maxy Hbounds Hfinite geom.
  pose proof (Hlon _ _ _ _ _ Hlb Hlt) as Hsame.
  destruct lb as [X Y0]. destruct lt as [X' Y1]. cbn [fst] in Hsame.
  subst X'.
  apply (@quantizer_zero_division _ _ geom _ _ _ _ _ Hbounds).
  left. cbn [feqb fsub fconst B64.arith].
  assert (Hif : forall a : bool, (if a then X else X) = X)
    by (intros []; reflexivity).
  unfold bounds in Hbounds.
  destruct (feqb l l && feqb b b);
    cbn [coords_of app List.concat fold_left expand fltb B64.arith] in Hbounds;
    injection Hbounds as Hminx _ Hmaxx _;
    rewrite !Hif in Hminx, Hmaxx; subst minx maxx;
    apply sub_self_zero; exact Hfinite.
Qed.

End ZoomRange.

(** ** The file name of a tile *)

Section FileName.

Import Ascii.
Local Open Scope string_scope.

(** [str] is one to one. *)
Lemma str_injective (a b : Z) : str a = str b -> a = b.
Proof.
  unfold str. intros Heq.
  assert (Hnonnil : forall k, Z.to_int k <> Decimal.Pos Decimal.Nil /\
                              Z.to_int k <> Decimal.Neg Decimal.Nil).
  { intros [|p|p]; split; try discriminate; simpl; intros H;
      injection H as H; exact (DecimalPos.Unsigned.to_uint_nonnil p H). }
  apply (f_equal DecimalString.NilZero.int_of_string) in Heq.
  destruct (Hnonnil a) as [Ha1 Ha2]. destruct (Hnonnil b) as [Hb1 Hb2].
  rewrite !DecimalString.NilZero.isi in Heq by assumption.
  injection Heq as Heq.
  rewrite <- (DecimalZ.of_to a), <- (DecimalZ.of_to b), Heq. reflexivity.
Qed.

(** The decimal text of an [int] holds neither ["_"] nor ["."]. *)
Lemma uint_without (c : Ascii.ascii) (d : Decimal.uint) :
  c = "_"%char \/ c = "."%char ->
  without_char c (DecimalString.NilEmpty.string_of_uint d) = true.
Proof.
  intros Hc. induction d; simpl; try rewrite IHd;
    destruct Hc as [-> | ->]; reflexivity.
Qed.

Lemma str_without (c : Ascii.ascii) (k : Z) :
  c = "_"%char \/ c = "."%char -> without_char c (str k) = true.
Proof.
  intros Hc. unfold str, DecimalString.NilZero.string_of_int.
  assert (Huint : forall d,
            without_char c (DecimalString.NilZero.string_of_uint d) = true).
  { intros d. unfold DecimalString.NilZero.string_of_uint.
    destruct d; try (apply (uint_without _ Hc)).
    destruct Hc as [-> | ->]; reflexivity. }
  destruct (Z.to_int k) as [d|d]; [apply Huint|].
  simpl. rewrite Huint. destruct Hc as [-> | ->]; reflexivity.
Qed.

(** Two texts without [c], each followed by [c]: cut at the first [c]. *)
Lemma cut_at_first (c : Ascii.ascii) (s1 s2 r1 r2 : string) :
  without_char c s1 = true -> without_char c s2 = true ->
  s1 ++ String c r1 = s2 ++ String c r2 -> s1 = s2 /\ r1 = r2.
Proof.
  revert s2. induction s1 as [|a s1 IH]; intros [|b s2]; simpl;
    intros H1 H2 Heq.
  - injection Heq as ->. split; reflexivity.
  - injection Heq as <- _. rewrite Ascii.eqb_refl in H2. discriminate.
  - injection Heq as -> _. rewrite Ascii.eqb_refl in H1. discriminate.
  - injection Heq as -> Heq.
    apply andb_true_iff in H1. apply andb_true_iff in H2.
    destruct (IH s2 (proj2 H1) (proj2 H2) Heq) as [-> ->].
    split; reflexivity.
Qed.

Context {F Raw Json Pbf : Type}.
Context {float_ops : PyFloat F} {math_ops : PyMath F} {proj : Pyproj F} {ext : Externals F Raw Json Pbf}.

(** X18.  The file name in the Content-Disposition header of a response
    names its tile: two responses of the route with the same header
    answer the same zoom, column and row. *)
Theorem file_name_names_the_tile
    (z x y z' x' y' : Z) (resp resp' : StreamingResponse (Pbf := Pbf)) :
  serve_pbf_tile z x y = Ok resp ->
  serve_pbf_tile z' x' y' = Ok resp' ->
  content_disposition resp = content_disposition resp' ->
  z = z' /\ x = x' /\ y = y'.
Proof.
  unfold serve_pbf_tile.
  destruct (create_pbf_tile SHAPEFILE_PATH z x y) as [[tile|]|e];
    cbn [bind]; try discriminate.
  destruct (create_pbf_tile SHAPEFILE_PATH z' x' y') as [[tile'|]|e];
    cbn [bind]; try discriminate.
  intros Hresp Hresp'. injection Hresp as <-. injection Hresp' as <-.
  cbn [content_disposition]. intros Heq.
  cbn [append] in Heq.
  repeat match type of Heq with
         | String ?a _ = String ?a _ => injection Heq as Heq
         end.
  apply cut_at_first in Heq; try (apply str_without; left; reflexivity).
  destruct Heq as [Hz Heq].
  apply cut_at_first in Heq; try (apply str_without; left; reflexivity).
  destruct Heq as [Hx Heq].
  apply cut_at_first in Heq; try (apply str_without; right; reflexivity).
  destruct Heq as [Hy _].
  repeat split; apply str_injective; assumption.
Qed.

End FileName.

(** ** Further runs of the binary64 model *)

Section FurtherRuns.

Import Recorded.
Local Open Scope float_scope.


(** Tiles 1/0/0 and 1/1/0 share the edge on the Greenwich meridian. *)
Lemma side_by_side_run :
  exists east rb rt wlt wlb erb ert wend eend,
    tile_to_bbox (math_ops := math) (proj := pyproj) 1 1 0 = Ok east /\
    north_west_tile = Polygon (rb :: rt :: wlt :: wlb :: wend) [] /\
    east = Polygon (erb :: ert :: rt :: rb :: eend) [] /\
    (wend = [] \/ wend = [rb]) /\ (eend = [] \/ eend = [erb]).
Proof.
  assert (Heast : { east | tile_to_bbox (math_ops := math) (proj := pyproj)
                             1 1 0 = Ok east }).
  { eexists. vm_compute. reflexivity. }
  destruct Heast as [east Heast].
  destruct (@tiles_side_by_side_share_an_edge float _ math pyproj 1 0 0
              north_west_tile east)
    as [rb [rt [wlt [wlb [erb [ert [wend [eend Hshared]]]]]]]].
  - vm_compute. reflexivity.
  - exact Heast.
  - exists east, rb, rt, wlt, wlb, erb, ert, wend, eend. auto.
Defined.

(** Tiles 1/0/0 and 1/0/1 share the edge on the equator. *)
Lemma one_above_the_other_run :
  exists south rb nrt nlt lb srb slb nend send,
    tile_to_bbox (math_ops := math) (proj := pyproj) 1 0 1 = Ok south /\
    north_west_tile = Polygon (rb :: nrt :: nlt :: lb :: nend) [] /\
    south = Polygon (srb :: rb :: lb :: slb :: send) [] /\
    (nend = [] \/ nend = [rb]) /\ (send = [] \/ send = [srb]).
Proof.
  assert (Hsouth : { south | tile_to_bbox (math_ops := math) (proj := pyproj)
                               1 0 1 = Ok south }).
  { eexists. vm_compute. reflexivity. }
  destruct Hsouth as [south Hsouth].
  destruct (@tiles_one_above_the_other_share_an_edge float _ math pyproj 1 0 0
              north_west_tile south)
    as [rb [nrt [nlt [lb [srb [slb [nend [send Hshared]]]]]]]].
  - vm_compute. reflexivity.
  - exact Hsouth.
  - exists south, rb, nrt, nlt, lb, srb, slb, nend, send. auto.
Defined.

(** A line in the box of height 49 stays a line of two coordinates. *)
Lemma keeps_the_shape_run :
  exists q,
    geometry_to_tile_coords (LineString [(12, 49); (49, 0)]) (box 0 0 49 49) =
      Ok q /\
    geom_type q = "LineString"%string /\
    is_empty q = false /\
    length (coords_of q) = 2%nat.
Proof.
  eexists. split; [vm_compute; reflexivity|].
  apply (@quantizer_keeps_the_shape float _
           (LineString [(12, 49); (49, 0)]) (box 0 0 49 49)).
  vm_compute. reflexivity.
Defined.


(** A south-eastern city alone: tile 1/0/0 is [None] and the route
    answers 204, the record being processed and not surviving. *)
Lemma nothing_survives_run :
  serve_pbf_tile (ext := externals (shapefile [south_east])) 1 0 0 =
    Err (HTTPException 204 "No Content")
  <-> (Forall (processed (ext := externals (shapefile [south_east]))
                 north_west_tile) [south_east] /\
       forall feat, In feat [south_east] ->
         survives (ext := externals (shapefile [south_east]))
           north_west_tile feat = false).
Proof.
  destruct (none_exactly_when_nothing_survives
              (ext := externals (shapefile [south_east]))
              SHAPEFILE_PATH 1 0 0
              (tile_bbox := north_west_tile) (src := shapefile [south_east]))
    as [_ Hroute].
  - vm_compute. reflexivity.
  - reflexivity.
  - apply Hroute; [reflexivity|]. vm_compute. discriminate.
Defined.

(** The route on tile 0/0/0 of the three sample cities. *)
Lemma response_run :
  exists resp tile_bbox src d features,
    serve_pbf_tile (math_ops := math) (proj := pyproj) (ext := sample) 0 0 0 =
      Ok resp /\
    tile_to_bbox (math_ops := math) (proj := pyproj) 0 0 0 = Ok tile_bbox /\
    fiona_open (Externals := sample) SHAPEFILE_PATH = Ok src /\
    for_feat_in (ext := sample) tile_bbox (records src) [] =
      Ok (d :: features) /\
    media_type resp = "application/vnd.mapbox-vector-tile"%string /\
    content_disposition resp = "inline; filename=tile_0_0_0.pbf"%string.
Proof.
  assert (Hresp : { resp | serve_pbf_tile (math_ops := math) (proj := pyproj)
                             (ext := sample) 0 0 0 = Ok resp }).
  { eexists. vm_compute. reflexivity. }
  destruct Hresp as [resp Hresp].
  destruct (response_carries_one_layer (ext := sample) 0 0 0 Hresp)
    as [tile_bbox [src [d [features
          [Hbox [Hopen [Hloop [Hencode [Hmedia Hname]]]]]]]]].
  exists resp, tile_bbox, src, d, features.
  repeat split; assumption.
Defined.

(** Tile 60/0/0 under the recording: its box is flat, and a record in
    its corner raises. *)
Lemma failing_box_run :
  exists tile_bbox,
    tile_to_bbox (math_ops := math) (proj := pyproj) 60 0 0 = Ok tile_bbox /\
    (forall feat,
        survives (ext := sample) tile_bbox feat = true ->
        for_feat_body (ext := sample) tile_bbox feat =
          Err ZeroDivisionError) /\
    (forall src out,
        for_feat_in (ext := sample) tile_bbox src [] = Ok out -> out = []) /\
    (forall tile,
        create_pbf_tile (ext := sample) SHAPEFILE_PATH 60 0 0 <>
          Ok (Some tile)).
Proof.
  assert (Hbox : { tile_bbox | tile_to_bbox (math_ops := math) (proj := pyproj)
                                 60 0 0 = Ok tile_bbox }).
  { eexists. vm_compute. reflexivity. }
  destruct Hbox as [tile_bbox Hbox].
  exists tile_bbox. split; [exact Hbox|].
  apply (failing_box_gives_no_tile (ext := sample) SHAPEFILE_PATH 60 0 0
           (Point [(0, 0)]) Hbox).
  revert Hbox. vm_compute. intros Hbox. injection Hbox as <-. reflexivity.
Defined.

(** Zoom 2000. *)
Lemma zoom_2000_run :
  tile_to_bbox (math_ops := math) (proj := pyproj) 2000 3 5 =
    Err OverflowError /\
  create_pbf_tile (math_ops := math) (proj := pyproj) (ext := sample)
    SHAPEFILE_PATH 2000 3 5 = Err OverflowError /\
  serve_pbf_tile (math_ops := math) (proj := pyproj) (ext := sample)
    2000 3 5 = Err OverflowError.
Proof.
  apply (zoom_from_1024_overflows math pyproj sample SHAPEFILE_PATH
           (z := 2000) 3 5).
  lia.
Defined.

(** Zoom -1075 divides by zero; zoom -1074 does not. *)
Lemma zoom_minus_1075_run :
  tile_to_bbox (math_ops := B64.math libm) (proj := pyproj) (-1075) 0 0 =
    Err ZeroDivisionError.
Proof.
  apply (zero_division_exactly_below_the_subnormals libm pyproj (-1075) 0 0).
  - intros c. discriminate.
  - reflexivity.
  - split; [lia|reflexivity].
Defined.

(** The X of the recorded transformer depends on the longitude alone. *)
Lemma recorded_x_of_longitude (lon lat lat' : float) (c c' : coord float) :
  transformer_to_3857 (lon, lat) = Ok c ->
  transformer_to_3857 (lon, lat') = Ok c' ->
  fst c = fst c'.
Proof.
  intros Hc Hc'. injection Hc as <-. injection Hc' as <-. reflexivity.
Qed.

(** Tile 60/0/0 under the recording. *)
Lemma column_0_run :
  exists bbox,
    tile_to_bbox (math_ops := B64.math libm) (proj := pyproj) 60 0 0 =
      Ok bbox /\
    (exists c0 c1, bbox = Polygon [c0; c1; c1; c0] [] \/
                   bbox = Polygon [c0; c1; c1; c0; c0] []) /\
    forall geom, geometry_to_tile_coords geom bbox = Err ZeroDivisionError.
Proof.
  assert (Hbox : { bbox | tile_to_bbox (math_ops := B64.math libm)
                            (proj := pyproj) 60 0 0 = Ok bbox }).
  { eexists. vm_compute. reflexivity. }
  destruct Hbox as [bbox Hbox].
  destruct (@column_0_box_collapses_from_zoom_55 libm pyproj 60 0 bbox)
    as [Hring Hflat].
  - lia.
  - exact Hbox.
  - exists bbox. split; [exact Hbox|]. split; [exact Hring|].
    apply (Hflat recorded_x_of_longitude (- x_max) y_max (- x_max) y_max).
    + revert Hbox. vm_compute. intros Hbox. injection Hbox as <-. reflexivity.
    + reflexivity.
Defined.

(** The file name of tile 0/0/0. *)
Lemma file_name_run :
  exists resp,
    serve_pbf_tile (math_ops := math) (proj := pyproj) (ext := sample) 0 0 0 =
      Ok resp /\
    (0 = 0 /\ 0 = 0 /\ 0 = 0)%Z.
Proof.
  assert (Hresp : { resp | serve_pbf_tile (math_ops := math) (proj := pyproj)
                             (ext := sample) 0 0 0 = Ok resp }).
  { eexists. vm_compute. reflexivity. }
  destruct Hresp as [resp Hresp].
  exists resp. split; [exact Hresp|].
  exact (file_name_names_the_tile (ext := sample) 0 0 0 0 0 0
           Hresp Hresp eq_refl).
Defined.

End FurtherRuns.

